(** * Trend-intelligence diagnostic scripts: a shallow embedding

    The four scripts under [scripts/] fetch JSON from a social-analytics
    API, rank the returned records and print a report.  This development
    embeds the Python of [test_trends.py], [explore_smart_trends.py] and
    [fetch_lunarcrush.py] as Rocq functions over a small model of the
    Python values that [json] produces, in a monad that records what is
    printed and which HTTP requests are issued, and that carries Python
    exceptions explicitly. *)

From Stdlib Require Import List String Ascii ZArith Lia Bool.
From Stdlib Require Import Permutation Sorted DecimalString.
Import ListNotations.
Local Open Scope string_scope.
Local Open Scope Z_scope.
Set Warnings "-register-all".

(** ** Python values

    The values [response.json()] returns.  A JSON number without fraction
    and exponent is an [int], any other a [float]; a Python [dict] keeps
    its insertion order, which [str] and [keys()] show, so it is an
    association list. *)

(** A [float]: [FFinite neg m e] is [m * 2^e], negated when [neg]; a
    binary64 has [m] below [2^53] and [e] from -1074 to 971.  A number too
    large for the format reads as an infinity and one too small as a zero.
    There is no NaN: JSON has no such number (only the literal [NaN] that
    Python accepts beyond the standard gives one), and with it [<] is no
    order, so that what a sort returns would depend on the merge strategy
    of CPython, which the sort below does not embed. *)
Inductive pyfloat : Type :=
| FZero (neg : bool)
| FInf (neg : bool)
| FFinite (neg : bool) (m : positive) (e : Z).

Inductive value : Type :=
| VNone
| VBool (b : bool)
| VInt (z : Z)
| VFloat (f : pyfloat)
| VStr (s : string)
| VList (l : list value)
| VDict (d : list (string * value)).

(** Exception classes the scripts can meet.  [RequestException] stands
    for the transport errors of [requests] (connection, timeout), and
    [HTTPError] is its subclass raised by [raise_for_status]. *)
Inductive exn_class : Type :=
| RequestException
| HTTPError
| JSONDecodeError
| AttributeError
| TypeError
| KeyError
| IndexError
| ValueError.

Record exn : Type := mkExn { exn_cls : exn_class; exn_msg : string }.

(** [isinstance(e, requests.exceptions.RequestException)]: since
    requests 2.27 the JSON error of [response.json()] derives from it. *)
Definition is_RequestException (e : exn) : bool :=
  match exn_cls e with
  | RequestException | HTTPError | JSONDecodeError => true
  | _ => false
  end.

Inductive result (A : Type) : Type :=
| Ok (a : A)
| Raise (e : exn).
Arguments Ok {A} a.
Arguments Raise {A} e.

(** ** HTTP *)

Inductive http_method : Type := GET | POST.

Record request : Type := mkRequest {
  req_method : http_method;
  req_url : string;
  req_headers : list (string * string);
  req_json : option value;
  req_timeout : option Z
}.

(** A response: the status and its reason phrase, the final URL, the raw
    text and what [.json()] gives. *)
Record response : Type := mkResponse {
  status_code : Z;
  reason : string;
  resp_url : string;
  text : string;
  json : result value
}.

(** The world outside the process: the network and the clock. *)
Record env : Type := mkEnv {
  send : request -> result response;
  today : string
}.

(** ** The script monad

    A computation reads the world, emits events (a [print] call or an
    HTTP request) and ends in a value or an exception. *)

Inductive event : Type :=
| Print (line : string)
| Http (r : request).

Definition M (A : Type) : Type := env -> list event * result A.

Definition ret {A} (a : A) : M A := fun _ => ([], Ok a).

Definition bind {A B} (m : M A) (k : A -> M B) : M B :=
  fun w =>
    match m w with
    | (t, Ok a) => let (t', r) := k a w in ((t ++ t')%list, r)
    | (t, Raise e) => (t, Raise e)
    end.

Definition raise {A} (e : exn) : M A := fun _ => ([], Raise e).

Definition lift {A} (r : result A) : M A := fun _ => ([], r).

Definition print (s : string) : M unit := fun _ => ([Print s], Ok tt).

Definition ask_today : M string := fun w => ([], Ok (today w)).

(** [try: body except <handles>: handler]. *)
Definition try_except {A} (body : M A) (handles : exn -> bool)
                      (handler : exn -> M A) : M A :=
  fun w =>
    match body w with
    | (t, Ok a) => (t, Ok a)
    | (t, Raise e) =>
        if handles e
        then let (t', r) := handler e w in ((t ++ t')%list, r)
        else (t, Raise e)
    end.

(** [except Exception] catches every class of [exn_class]. *)
Definition any_Exception (_ : exn) : bool := true.

Declare Scope py_scope.
Delimit Scope py_scope with py.
Notation "x <- m ;; k" := (bind m (fun x => k))
  (at level 61, m at next level, right associativity) : py_scope.
Notation "m ;;; k" := (bind m (fun _ => k))
  (at level 61, right associativity) : py_scope.
Local Open Scope py_scope.

Definition requests_get (url : string) (headers : list (string * string))
                        (timeout : option Z) : M response :=
  fun w =>
    let r := mkRequest GET url headers None timeout in
    ([Http r], send w r).

Definition requests_post (url : string) (payload : value) : M response :=
  fun w =>
    let r := mkRequest POST url [] (Some payload) None in
    ([Http r], send w r).

(** The request [requests.get(url, headers={'Authorization': ...}, timeout=...)]
    sends. *)
Definition get_request (url key : string) (timeout : option Z) : request :=
  mkRequest GET url [("Authorization", "Bearer " ++ key)] None timeout.

Definition stdout (t : list event) : list string :=
  flat_map (fun e => match e with Print s => [s] | Http _ => [] end) t.

Definition requests_of (t : list event) : list request :=
  flat_map (fun e => match e with Http r => [r] | Print _ => [] end) t.

(** ** Operations on values *)

Definition type_name (v : value) : string :=
  match v with
  | VNone => "NoneType"
  | VBool _ => "bool"
  | VInt _ => "int"
  | VFloat _ => "float"
  | VStr _ => "str"
  | VList _ => "list"
  | VDict _ => "dict"
  end.

(** [bool(v)], the test of [if v:]. *)
Definition truthy (v : value) : bool :=
  match v with
  | VNone => false
  | VBool b => b
  | VInt z => negb (z =? 0)
  | VFloat f => match f with FZero _ => false | _ => true end
  | VStr s => negb (String.eqb s "")
  | VList l => match l with [] => false | _ => true end
  | VDict d => match d with [] => false | _ => true end
  end.

Fixpoint assoc {V} (k : string) (d : list (string * V)) : option V :=
  match d with
  | [] => None
  | (k', v) :: d' => if String.eqb k k' then Some v else assoc k d'
  end.

Definition no_attribute {A} (v : value) (attr : string) : result A :=
  Raise (mkExn AttributeError
           ("'" ++ type_name v ++ "' object has no attribute '" ++ attr ++ "'")).

(** [x.get(k, default)]; only a [dict] has the method. *)
Definition py_get (x : value) (k : string) (default : value) : result value :=
  match x with
  | VDict d => Ok match assoc k d with Some v => v | None => default end
  | _ => no_attribute x "get"
  end.

(** [k in x] for a string [k], as [analyze_data] asks of the body. *)
Definition py_contains_key (x : value) (k : string) : result bool :=
  match x with
  | VDict d => Ok match assoc k d with Some _ => true | None => false end
  | VList l =>
      Ok (existsb (fun v => match v with VStr s => String.eqb s k | _ => false end) l)
  | VStr s =>
      Ok (existsb (fun n => String.eqb (substring n (String.length k) s) k)
                  (seq 0 (S (String.length s))))
  | _ => Raise (mkExn TypeError
                  ("argument of type '" ++ type_name x ++ "' is not iterable"))
  end.

(** [x[k]] for a string [k]. *)
Definition py_getitem_str (x : value) (k : string) : result value :=
  match x with
  | VDict d =>
      match assoc k d with
      | Some v => Ok v
      | None => Raise (mkExn KeyError ("'" ++ k ++ "'"))
      end
  | VList _ => Raise (mkExn TypeError "list indices must be integers or slices, not str")
  | VStr _ => Raise (mkExn TypeError "string indices must be integers, not 'str'")
  | _ => Raise (mkExn TypeError ("'" ++ type_name x ++ "' object is not subscriptable"))
  end.

(** A [str] is held as its UTF-8 bytes.  A character of the [str] (a code
    point) is a byte that is no continuation byte (10xxxxxx) with the
    continuation bytes that follow it. *)
Definition continuation (c : ascii) : bool :=
  (128 <=? N_of_ascii c)%N && (N_of_ascii c <? 192)%N.

(** The continuation bytes [s] starts with, and the characters after. *)
Fixpoint split_characters (s : string) : string * list string :=
  match s with
  | "" => ("", [])
  | String c s' =>
      let (more, cs) := split_characters s' in
      if continuation c then (String c more, cs) else ("", String c more :: cs)
  end.

Definition characters (s : string) : list string :=
  match split_characters s with
  | ("", cs) => cs
  | (stray, cs) => stray :: cs
  end.

(** [s[:n]]. *)
Definition take_characters (n : nat) (s : string) : string :=
  String.concat "" (firstn n (characters s)).

(** [x[0]]. *)
Definition py_getitem_0 (x : value) : result value :=
  match x with
  | VList (v :: _) => Ok v
  | VList [] => Raise (mkExn IndexError "list index out of range")
  | VStr s =>
      match characters s with
      | c :: _ => Ok (VStr c)
      | [] => Raise (mkExn IndexError "string index out of range")
      end
  | VDict _ => Raise (mkExn KeyError "0")
  | _ => Raise (mkExn TypeError ("'" ++ type_name x ++ "' object is not subscriptable"))
  end.

(** What [for v in x] and [sorted(x)] walk over. *)
Definition py_iter (x : value) : result (list value) :=
  match x with
  | VList l => Ok l
  | VStr s => Ok (map VStr (characters s))
  | VDict d => Ok (map (fun kv => VStr (fst kv)) d)
  | _ => Raise (mkExn TypeError ("'" ++ type_name x ++ "' object is not iterable"))
  end.

(** [len(x)]. *)
Definition py_len (x : value) : result Z :=
  match x with
  | VList l => Ok (Z.of_nat (List.length l))
  | VStr s => Ok (Z.of_nat (List.length (characters s)))
  | VDict d => Ok (Z.of_nat (List.length d))
  | _ => Raise (mkExn TypeError ("object of type '" ++ type_name x ++ "' has no len()"))
  end.

(** [x[:n]]. *)
Definition py_slice_to (n : nat) (x : value) : result value :=
  match x with
  | VList l => Ok (VList (firstn n l))
  | VStr s => Ok (VStr (take_characters n s))
  | VDict _ => Raise (mkExn TypeError "unhashable type: 'slice'")
  | _ => Raise (mkExn TypeError ("'" ++ type_name x ++ "' object is not subscriptable"))
  end.

(** [x.keys()] as a list. *)
Definition py_keys (x : value) : result value :=
  match x with
  | VDict d => Ok (VList (map (fun kv => VStr (fst kv)) d))
  | _ => no_attribute x "keys"
  end.

(** [v not in names] for a list of string literals: [==] against each. *)
Definition not_in_strs (v : value) (names : list string) : bool :=
  match v with
  | VStr s => negb (existsb (String.eqb s) names)
  | _ => true
  end.

(** ** [str], [repr] and format specifications *)

Definition str_of_Z (z : Z) : string := NilZero.string_of_int (Z.to_int z).

Definition hex_digit (n : N) : ascii :=
  if (n <? 10)%N then ascii_of_N (48 + n) else ascii_of_N (87 + n).

Definition has_char (c : ascii) (s : string) : bool :=
  existsb (Ascii.eqb c) (list_ascii_of_string s).

Definition dquote : ascii := ascii_of_N 34.
Definition squote : ascii := ascii_of_N 39.
Definition backslash : ascii := ascii_of_N 92.

(** The code point a character encodes. *)
Definition code_point (ch : string) : N :=
  match list_ascii_of_string ch with
  | [] => 0
  | [c] => N_of_ascii c
  | c :: more =>
      fold_left (fun acc b => acc * 64 + N_of_ascii b mod 64) more
                (N_of_ascii c mod 2 ^ (6 - N.of_nat (List.length more)))
  end%N.

(** The code points from 128 on that [str.isprintable] rejects, as ranges
    with both ends included: the control, format, surrogate, private-use
    and separator characters and the unassigned code points of Unicode
    14.0, the version CPython 3.11 carries. *)
Definition not_printable : list (N * N) :=
  [(128, 160); (173, 173); (888, 889); (896, 899); (907, 907); (909, 909); (930, 930);
   (1328, 1328); (1367, 1368); (1419, 1420); (1424, 1424); (1480, 1487); (1515, 1518);
   (1525, 1541); (1564, 1564); (1757, 1757); (1806, 1807); (1867, 1868); (1970, 1983);
   (2043, 2044); (2094, 2095); (2111, 2111); (2140, 2141); (2143, 2143); (2155, 2159);
   (2191, 2199); (2274, 2274); (2436, 2436); (2445, 2446); (2449, 2450); (2473, 2473);
   (2481, 2481); (2483, 2485); (2490, 2491); (2501, 2502); (2505, 2506); (2511, 2518);
   (2520, 2523); (2526, 2526); (2532, 2533); (2559, 2560); (2564, 2564); (2571, 2574);
   (2577, 2578); (2601, 2601); (2609, 2609); (2612, 2612); (2615, 2615); (2618, 2619);
   (2621, 2621); (2627, 2630); (2633, 2634); (2638, 2640); (2642, 2648); (2653, 2653);
   (2655, 2661); (2679, 2688); (2692, 2692); (2702, 2702); (2706, 2706); (2729, 2729);
   (2737, 2737); (2740, 2740); (2746, 2747); (2758, 2758); (2762, 2762); (2766, 2767);
   (2769, 2783); (2788, 2789); (2802, 2808); (2816, 2816); (2820, 2820); (2829, 2830);
   (2833, 2834); (2857, 2857); (2865, 2865); (2868, 2868); (2874, 2875); (2885, 2886);
   (2889, 2890); (2894, 2900); (2904, 2907); (2910, 2910); (2916, 2917); (2936, 2945);
   (2948, 2948); (2955, 2957); (2961, 2961); (2966, 2968); (2971, 2971); (2973, 2973);
   (2976, 2978); (2981, 2983); (2987, 2989); (3002, 3005); (3011, 3013); (3017, 3017);
   (3022, 3023); (3025, 3030); (3032, 3045); (3067, 3071); (3085, 3085); (3089, 3089);
   (3113, 3113); (3130, 3131); (3141, 3141); (3145, 3145); (3150, 3156); (3159, 3159);
   (3163, 3164); (3166, 3167); (3172, 3173); (3184, 3190); (3213, 3213); (3217, 3217);
   (3241, 3241); (3252, 3252); (3258, 3259); (3269, 3269); (3273, 3273); (3278, 3284);
   (3287, 3292); (3295, 3295); (3300, 3301); (3312, 3312); (3315, 3327); (3341, 3341);
   (3345, 3345); (3397, 3397); (3401, 3401); (3408, 3411); (3428, 3429); (3456, 3456);
   (3460, 3460); (3479, 3481); (3506, 3506); (3516, 3516); (3518, 3519); (3527, 3529);
   (3531, 3534); (3541, 3541); (3543, 3543); (3552, 3557); (3568, 3569); (3573, 3584);
   (3643, 3646); (3676, 3712); (3715, 3715); (3717, 3717); (3723, 3723); (3748, 3748);
   (3750, 3750); (3774, 3775); (3781, 3781); (3783, 3783); (3790, 3791); (3802, 3803);
   (3808, 3839); (3912, 3912); (3949, 3952); (3992, 3992); (4029, 4029); (4045, 4045);
   (4059, 4095); (4294, 4294); (4296, 4300); (4302, 4303); (4681, 4681); (4686, 4687);
   (4695, 4695); (4697, 4697); (4702, 4703); (4745, 4745); (4750, 4751); (4785, 4785);
   (4790, 4791); (4799, 4799); (4801, 4801); (4806, 4807); (4823, 4823); (4881, 4881);
   (4886, 4887); (4955, 4956); (4989, 4991); (5018, 5023); (5110, 5111); (5118, 5119);
   (5760, 5760); (5789, 5791); (5881, 5887); (5910, 5918); (5943, 5951); (5972, 5983);
   (5997, 5997); (6001, 6001); (6004, 6015); (6110, 6111); (6122, 6127); (6138, 6143);
   (6158, 6158); (6170, 6175); (6265, 6271); (6315, 6319); (6390, 6399); (6431, 6431);
   (6444, 6447); (6460, 6463); (6465, 6467); (6510, 6511); (6517, 6527); (6572, 6575);
   (6602, 6607); (6619, 6621); (6684, 6685); (6751, 6751); (6781, 6782); (6794, 6799);
   (6810, 6815); (6830, 6831); (6863, 6911); (6989, 6991); (7039, 7039); (7156, 7163);
   (7224, 7226); (7242, 7244); (7305, 7311); (7355, 7356); (7368, 7375); (7419, 7423);
   (7958, 7959); (7966, 7967); (8006, 8007); (8014, 8015); (8024, 8024); (8026, 8026);
   (8028, 8028); (8030, 8030); (8062, 8063); (8117, 8117); (8133, 8133); (8148, 8149);
   (8156, 8156); (8176, 8177); (8181, 8181); (8191, 8207); (8232, 8239); (8287, 8303);
   (8306, 8307); (8335, 8335); (8349, 8351); (8385, 8399); (8433, 8447); (8588, 8591);
   (9255, 9279); (9291, 9311); (11124, 11125); (11158, 11158); (11508, 11512); (11558,
   11558); (11560, 11564); (11566, 11567); (11624, 11630); (11633, 11646); (11671,
   11679); (11687, 11687); (11695, 11695); (11703, 11703); (11711, 11711); (11719,
   11719); (11727, 11727); (11735, 11735); (11743, 11743); (11870, 11903); (11930,
   11930); (12020, 12031); (12246, 12271); (12284, 12288); (12352, 12352); (12439,
   12440); (12544, 12548); (12592, 12592); (12687, 12687); (12772, 12783); (12831,
   12831); (42125, 42127); (42183, 42191); (42540, 42559); (42744, 42751); (42955,
   42959); (42962, 42962); (42964, 42964); (42970, 42993); (43053, 43055); (43066,
   43071); (43128, 43135); (43206, 43213); (43226, 43231); (43348, 43358); (43389,
   43391); (43470, 43470); (43482, 43485); (43519, 43519); (43575, 43583); (43598,
   43599); (43610, 43611); (43715, 43738); (43767, 43776); (43783, 43784); (43791,
   43792); (43799, 43807); (43815, 43815); (43823, 43823); (43884, 43887); (44014,
   44015); (44026, 44031); (55204, 55215); (55239, 55242); (55292, 63743); (64110,
   64111); (64218, 64255); (64263, 64274); (64280, 64284); (64311, 64311); (64317,
   64317); (64319, 64319); (64322, 64322); (64325, 64325); (64451, 64466); (64912,
   64913); (64968, 64974); (64976, 65007); (65050, 65055); (65107, 65107); (65127,
   65127); (65132, 65135); (65141, 65141); (65277, 65280); (65471, 65473); (65480,
   65481); (65488, 65489); (65496, 65497); (65501, 65503); (65511, 65511); (65519,
   65531); (65534, 65535); (65548, 65548); (65575, 65575); (65595, 65595); (65598,
   65598); (65614, 65615); (65630, 65663); (65787, 65791); (65795, 65798); (65844,
   65846); (65935, 65935); (65949, 65951); (65953, 65999); (66046, 66175); (66205,
   66207); (66257, 66271); (66300, 66303); (66340, 66348); (66379, 66383); (66427,
   66431); (66462, 66462); (66500, 66503); (66518, 66559); (66718, 66719); (66730,
   66735); (66772, 66775); (66812, 66815); (66856, 66863); (66916, 66926); (66939,
   66939); (66955, 66955); (66963, 66963); (66966, 66966); (66978, 66978); (66994,
   66994); (67002, 67002); (67005, 67071); (67383, 67391); (67414, 67423); (67432,
   67455); (67462, 67462); (67505, 67505); (67515, 67583); (67590, 67591); (67593,
   67593); (67638, 67638); (67641, 67643); (67645, 67646); (67670, 67670); (67743,
   67750); (67760, 67807); (67827, 67827); (67830, 67834); (67868, 67870); (67898,
   67902); (67904, 67967); (68024, 68027); (68048, 68049); (68100, 68100); (68103,
   68107); (68116, 68116); (68120, 68120); (68150, 68151); (68155, 68158); (68169,
   68175); (68185, 68191); (68256, 68287); (68327, 68330); (68343, 68351); (68406,
   68408); (68438, 68439); (68467, 68471); (68498, 68504); (68509, 68520); (68528,
   68607); (68681, 68735); (68787, 68799); (68851, 68857); (68904, 68911); (68922,
   69215); (69247, 69247); (69290, 69290); (69294, 69295); (69298, 69375); (69416,
   69423); (69466, 69487); (69514, 69551); (69580, 69599); (69623, 69631); (69710,
   69713); (69750, 69758); (69821, 69821); (69827, 69839); (69865, 69871); (69882,
   69887); (69941, 69941); (69960, 69967); (70007, 70015); (70112, 70112); (70133,
   70143); (70162, 70162); (70207, 70271); (70279, 70279); (70281, 70281); (70286,
   70286); (70302, 70302); (70314, 70319); (70379, 70383); (70394, 70399); (70404,
   70404); (70413, 70414); (70417, 70418); (70441, 70441); (70449, 70449); (70452,
   70452); (70458, 70458); (70469, 70470); (70473, 70474); (70478, 70479); (70481,
   70486); (70488, 70492); (70500, 70501); (70509, 70511); (70517, 70655); (70748,
   70748); (70754, 70783); (70856, 70863); (70874, 71039); (71094, 71095); (71134,
   71167); (71237, 71247); (71258, 71263); (71277, 71295); (71354, 71359); (71370,
   71423); (71451, 71452); (71468, 71471); (71495, 71679); (71740, 71839); (71923,
   71934); (71943, 71944); (71946, 71947); (71956, 71956); (71959, 71959); (71990,
   71990); (71993, 71994); (72007, 72015); (72026, 72095); (72104, 72105); (72152,
   72153); (72165, 72191); (72264, 72271); (72355, 72367); (72441, 72703); (72713,
   72713); (72759, 72759); (72774, 72783); (72813, 72815); (72848, 72849); (72872,
   72872); (72887, 72959); (72967, 72967); (72970, 72970); (73015, 73017); (73019,
   73019); (73022, 73022); (73032, 73039); (73050, 73055); (73062, 73062); (73065,
   73065); (73103, 73103); (73106, 73106); (73113, 73119); (73130, 73439); (73465,
   73647); (73649, 73663); (73714, 73726); (74650, 74751); (74863, 74863); (74869,
   74879); (75076, 77711); (77811, 77823); (78895, 82943); (83527, 92159); (92729,
   92735); (92767, 92767); (92778, 92781); (92863, 92863); (92874, 92879); (92910,
   92911); (92918, 92927); (92998, 93007); (93018, 93018); (93026, 93026); (93048,
   93052); (93072, 93759); (93851, 93951); (94027, 94030); (94088, 94094); (94112,
   94175); (94181, 94191); (94194, 94207); (100344, 100351); (101590, 101631); (101641,
   110575); (110580, 110580); (110588, 110588); (110591, 110591); (110883, 110927);
   (110931, 110947); (110952, 110959); (111356, 113663); (113771, 113775); (113789,
   113791); (113801, 113807); (113818, 113819); (113824, 118527); (118574, 118575);
   (118599, 118607); (118724, 118783); (119030, 119039); (119079, 119080); (119155,
   119162); (119275, 119295); (119366, 119519); (119540, 119551); (119639, 119647);
   (119673, 119807); (119893, 119893); (119965, 119965); (119968, 119969); (119971,
   119972); (119975, 119976); (119981, 119981); (119994, 119994); (119996, 119996);
   (120004, 120004); (120070, 120070); (120075, 120076); (120085, 120085); (120093,
   120093); (120122, 120122); (120127, 120127); (120133, 120133); (120135, 120137);
   (120145, 120145); (120486, 120487); (120780, 120781); (121484, 121498); (121504,
   121504); (121520, 122623); (122655, 122879); (122887, 122887); (122905, 122906);
   (122914, 122914); (122917, 122917); (122923, 123135); (123181, 123183); (123198,
   123199); (123210, 123213); (123216, 123535); (123567, 123583); (123642, 123646);
   (123648, 124895); (124903, 124903); (124908, 124908); (124911, 124911); (124927,
   124927); (125125, 125126); (125143, 125183); (125260, 125263); (125274, 125277);
   (125280, 126064); (126133, 126208); (126270, 126463); (126468, 126468); (126496,
   126496); (126499, 126499); (126501, 126502); (126504, 126504); (126515, 126515);
   (126520, 126520); (126522, 126522); (126524, 126529); (126531, 126534); (126536,
   126536); (126538, 126538); (126540, 126540); (126544, 126544); (126547, 126547);
   (126549, 126550); (126552, 126552); (126554, 126554); (126556, 126556); (126558,
   126558); (126560, 126560); (126563, 126563); (126565, 126566); (126571, 126571);
   (126579, 126579); (126584, 126584); (126589, 126589); (126591, 126591); (126602,
   126602); (126620, 126624); (126628, 126628); (126634, 126634); (126652, 126703);
   (126706, 126975); (127020, 127023); (127124, 127135); (127151, 127152); (127168,
   127168); (127184, 127184); (127222, 127231); (127406, 127461); (127491, 127503);
   (127548, 127551); (127561, 127567); (127570, 127583); (127590, 127743); (128728,
   128732); (128749, 128751); (128765, 128767); (128884, 128895); (128985, 128991);
   (129004, 129007); (129009, 129023); (129036, 129039); (129096, 129103); (129114,
   129119); (129160, 129167); (129198, 129199); (129202, 129279); (129620, 129631);
   (129646, 129647); (129653, 129655); (129661, 129663); (129671, 129679); (129709,
   129711); (129723, 129727); (129734, 129743); (129754, 129759); (129768, 129775);
   (129783, 129791); (129939, 129939); (129995, 130031); (130042, 131071); (173792,
   173823); (177977, 177983); (178206, 178207); (183970, 183983); (191457, 194559);
   (195102, 196607); (201547, 917759); (918000, 1114111)]%N.

Definition printable (cp : N) : bool :=
  negb (existsb (fun r => (fst r <=? cp) && (cp <=? snd r))%N not_printable).

(** [n] as [width] hexadecimal digits. *)
Fixpoint hex (width : nat) (n : N) : string :=
  match width with
  | O => ""
  | S w => hex w (n / 16) ++ String (hex_digit (n mod 16)) ""
  end.

(** [repr] of a string: single quotes unless the string has one and no
    double quote; backslash, the quote and the characters that are not
    printable escaped. *)
Definition repr_char (quote : ascii) (ch : string) : string :=
  let n := code_point ch in
  if String.eqb ch (String quote "") || String.eqb ch (String backslash "")
  then String backslash ch
  else if (n =? 9)%N then String backslash "t"
  else if (n =? 10)%N then String backslash "n"
  else if (n =? 13)%N then String backslash "r"
  else if (n <? 32)%N || (n =? 127)%N then String backslash ("x" ++ hex 2 n)
  else if (n <? 128)%N || printable n then ch
  else if (n <? 256)%N then String backslash ("x" ++ hex 2 n)
  else if (n <? 65536)%N then String backslash ("u" ++ hex 4 n)
  else String backslash ("U" ++ hex 8 n).

Definition repr_str (s : string) : string :=
  let quote := if has_char squote s && negb (has_char dquote s)
               then dquote else squote in
  String quote
    (String.concat "" (map (repr_char quote) (characters s))
     ++ String quote "").

(** [repr] of a [float] is the shortest decimal that reads back as the
    same binary64.  The arithmetic is exact, on fractions of integers. *)

(** The mantissa and exponent as the binary64 format stores them: the
    mantissa on 53 bits, or the exponent at its minimum -1074. *)
Definition canonical (m : positive) (e : Z) : Z * Z :=
  let spare := 52 - Z.log2 (Z.pos m) in
  if spare <? 0 then (Z.pos m / 2 ^ (- spare), e - spare)
  else let shift := Z.min spare (e + 1074) in
       if 0 <? shift then (Z.pos m * 2 ^ shift, e - shift) else (Z.pos m, e).

(** [n * 10^q * 2^s] as a fraction. *)
Definition scaled (n q s : Z) : Z * Z :=
  (n * 10 ^ Z.max q 0 * 2 ^ Z.max s 0, 10 ^ Z.max (- q) 0 * 2 ^ Z.max (- s) 0).

Definition frac_compare (a b : Z * Z) : comparison :=
  (fst a * snd b ?= fst b * snd a).

Definition frac_leb (a b : Z * Z) : bool :=
  match frac_compare a b with Gt => false | _ => true end.

Definition frac_ltb (a b : Z * Z) : bool :=
  match frac_compare a b with Lt => true | _ => false end.

(** The decimals that read back as the float [M * 2^E] lie between the
    midpoints to its two neighbours, the midpoints included when [M] is
    even.  The neighbour below a power of two is half as far. *)
Definition reads_back (M E : Z) (d q : Z) : bool :=
  let c := scaled d q 0 in
  let below := if (M =? 2 ^ 52) && (-1074 <? E) then scaled (4 * M - 1) 0 (E - 2)
               else scaled (4 * M - 2) 0 (E - 2) in
  let above := scaled (4 * M + 2) 0 (E - 2) in
  if Z.even M then frac_leb below c && frac_leb c above
  else frac_ltb below c && frac_ltb c above.

(** The largest [k] with [10^k <= x], for a positive fraction [x]. *)
Fixpoint log10_from (fuel : nat) (x : Z * Z) (k : Z) : Z :=
  match fuel with
  | O => k
  | S fuel' => if frac_leb (scaled 1 (k + 1) 0) x then log10_from fuel' x (k + 1) else k
  end.

Definition floor_log10 (x : Z * Z) : Z :=
  log10_from 8 x ((Z.log2 (fst x) - Z.log2 (snd x) - 1) * 1233 / 4096 - 1).

(** The digits of the shortest decimal that reads back as [M * 2^E],
    the nearest to it when several do (the even one of two equally near),
    with the power of ten of its last digit. *)
Fixpoint shortest_from (fuel : nat) (M E k : Z) (p : Z) : Z * Z :=
  let x := scaled M 0 E in
  let q := k - p + 1 in
  let lo := fst x * fst (scaled 1 (- q) 0) / (snd x * snd (scaled 1 (- q) 0)) in
  let hi := lo + 1 in
  let lo_ok := reads_back M E lo q in
  let hi_ok := reads_back M E hi q in
  let hi_nearer :=
    match frac_compare (scaled (2 * lo + 1) q 0) (scaled (2 * M) 0 E) with
    | Lt => true
    | Eq => Z.odd lo
    | Gt => false
    end in
  match fuel with
  | O => (lo, q)
  | S fuel' =>
      if lo_ok && hi_ok then (if hi_nearer then (hi, q) else (lo, q))
      else if lo_ok then (lo, q)
      else if hi_ok then (hi, q)
      else shortest_from fuel' M E k (p + 1)
  end.

Fixpoint strip_zeros (fuel : nat) (d q : Z) : Z * Z :=
  match fuel with
  | O => (d, q)
  | S fuel' => if (d mod 10 =? 0) && negb (d =? 0)
               then strip_zeros fuel' (d / 10) (q + 1) else (d, q)
  end.

Definition shortest_digits (m : positive) (e : Z) : Z * Z :=
  let (M, E) := canonical m e in
  let (d, q) := shortest_from 17 M E (floor_log10 (scaled M 0 E)) 1 in
  strip_zeros 20 d q.

Fixpoint zeros (n : nat) : string :=
  match n with O => "" | S n' => String "0" (zeros n') end.

(** [repr] of a positive float from its digits: fixed notation while the
    decimal point falls within 16 digits and no more than four zeros
    follow it, the exponent notation beyond. *)
Definition layout_digits (d q : Z) : string :=
  let ds := str_of_Z d in
  let n := Z.of_nat (String.length ds) in
  let decpt := n + q in
  if (decpt <=? -4) || (16 <? decpt)
  then let ex := decpt - 1 in
       substring 0 1 ds
       ++ (if n =? 1 then "" else "." ++ substring 1 (String.length ds - 1) ds)
       ++ "e" ++ (if ex <? 0 then "-" else "+")
       ++ (if Z.abs ex <? 10 then "0" else "") ++ str_of_Z (Z.abs ex)
  else if decpt <=? 0 then "0." ++ zeros (Z.to_nat (- decpt)) ++ ds
  else if n <=? decpt then ds ++ zeros (Z.to_nat (decpt - n)) ++ ".0"
  else substring 0 (Z.to_nat decpt) ds ++ "."
       ++ substring (Z.to_nat decpt) (String.length ds - Z.to_nat decpt) ds.

(** [repr(f)], which is also [str(f)]. *)
Definition float_repr (f : pyfloat) : string :=
  match f with
  | FZero neg => if neg then "-0.0" else "0.0"
  | FInf neg => if neg then "-inf" else "inf"
  | FFinite neg m e =>
      (if neg then "-" else "")
      ++ (let (d, q) := shortest_digits m e in layout_digits d q)
  end.

(** The digits before the point or the exponent, and what follows them. *)
Fixpoint leading_digits (s : string) : list ascii * string :=
  match s with
  | String c s' =>
      if (48 <=? N_of_ascii c)%N && (N_of_ascii c <=? 57)%N
      then let (ds, rest) := leading_digits s' in (c :: ds, rest)
      else ([], s)
  | "" => ([], "")
  end.

Fixpoint py_repr (v : value) : string :=
  match v with
  | VNone => "None"
  | VBool true => "True"
  | VBool false => "False"
  | VInt z => str_of_Z z
  | VFloat f => float_repr f
  | VStr s => repr_str s
  | VList l => "[" ++ String.concat ", " (map py_repr l) ++ "]"
  | VDict d =>
      "{" ++ String.concat ", "
               (map (fun kv => repr_str (fst kv) ++ ": " ++ py_repr (snd kv)) d)
          ++ "}"
  end.

(** [str(v)], which is what [{v}] interpolates in an f-string. *)
Definition py_str (v : value) : string :=
  match v with
  | VStr s => s
  | _ => py_repr v
  end.

Fixpoint group3 (rev_digits : list ascii) : list ascii :=
  match rev_digits with
  | a :: b :: c :: (_ :: _) as more => a :: b :: c :: ","%char :: group3 more
  | _ => rev_digits
  end.

Definition thousands (z : Z) : string :=
  let digits := list_ascii_of_string (str_of_Z (Z.abs z)) in
  (if z <? 0 then "-" else "")
  ++ string_of_list_ascii (rev (group3 (rev digits))).

(** [{f:,}] for a [float]: its [repr] with the digits before the point
    grouped (the exponent notation has one digit there). *)
Definition float_thousands (f : pyfloat) : string :=
  match f with
  | FFinite neg m e =>
      let (d, q) := shortest_digits m e in
      let (ds, rest) := leading_digits (layout_digits d q) in
      (if neg then "-" else "") ++ string_of_list_ascii (rev (group3 (rev ds))) ++ rest
  | _ => float_repr f
  end.

(** [{v:,}]: the comma specification exists for numbers only. *)
Definition format_comma (v : value) : result string :=
  match v with
  | VInt z => Ok (thousands z)
  | VFloat f => Ok (float_thousands f)
  | VBool b => Ok (if b then "1" else "0")
  | VStr _ => Raise (mkExn ValueError "Cannot specify ',' with 's'.")
  | _ => Raise (mkExn TypeError
                  ("unsupported format string passed to "
                   ++ type_name v ++ ".__format__"))
  end.

(** ** Comparison and sorting

    [list.sort] and [sorted] apply the key to every element first and
    then order the elements with [<] on the keys alone. *)

(** How Python reads a value as a number: a [bool] is an [int]. *)
Definition as_int (v : value) : option Z :=
  match v with
  | VInt z => Some z
  | VBool b => Some (if b then 1 else 0)
  | _ => None
  end.

(** A number as the comparisons see it: an [int] and a [float] are
    compared by value, exactly.  [Dyadic n e] is [n * 2^e]. *)
Inductive number : Type :=
| Infinite (neg : bool)
| Dyadic (n e : Z).

Definition number_of_float (f : pyfloat) : number :=
  match f with
  | FZero _ => Dyadic 0 0
  | FInf neg => Infinite neg
  | FFinite neg m e => Dyadic (if neg then Z.neg m else Z.pos m) e
  end.

Definition number_compare (a b : number) : comparison :=
  match a, b with
  | Infinite true, Infinite true => Eq
  | Infinite true, _ => Lt
  | _, Infinite true => Gt
  | Infinite false, Infinite false => Eq
  | Infinite false, _ => Gt
  | _, Infinite false => Lt
  | Dyadic n e, Dyadic n' e' =>
      let low := Z.min e e' in
      (n * 2 ^ (e - low) ?= n' * 2 ^ (e' - low))
  end.

Definition number_eqb (a b : number) : bool :=
  match number_compare a b with Eq => true | _ => false end.

Definition number_ltb (a b : number) : bool :=
  match number_compare a b with Lt => true | _ => false end.

Definition as_number (v : value) : option number :=
  match v with
  | VInt z => Some (Dyadic z 0)
  | VBool b => Some (Dyadic (if b then 1 else 0) 0)
  | VFloat f => Some (number_of_float f)
  | _ => None
  end.

Fixpoint py_eq (a b : value) {struct a} : bool :=
  match a, b with
  | VNone, VNone => true
  | VStr s, VStr t => String.eqb s t
  | VList xs, VList ys =>
      (fix go (xs ys : list value) : bool :=
         match xs, ys with
         | [], [] => true
         | x :: xs', y :: ys' => py_eq x y && go xs' ys'
         | _, _ => false
         end) xs ys
  | VDict d, VDict e =>
      Nat.eqb (List.length d) (List.length e)
      && (fix go (d : list (string * value)) : bool :=
            match d with
            | [] => true
            | (k, v) :: d' =>
                match assoc k e with
                | Some v' => py_eq v v'
                | None => false
                end && go d'
            end) d
  | VInt x, VFloat g => number_eqb (Dyadic x 0) (number_of_float g)
  | VInt x, _ => match as_int b with Some y => x =? y | None => false end
  | VBool x, VFloat g => number_eqb (Dyadic (if x then 1 else 0) 0) (number_of_float g)
  | VBool x, _ =>
      match as_int b with Some y => (if x then 1 else 0) =? y | None => false end
  | VFloat f, _ =>
      match as_number b with
      | Some y => number_eqb (number_of_float f) y
      | None => false
      end
  | _, _ => false
  end.

Definition not_ordered {A} (a b : value) : result A :=
  Raise (mkExn TypeError
           ("'<' not supported between instances of '" ++ type_name a
            ++ "' and '" ++ type_name b ++ "'")).

(** [a < b]: numbers by value, strings and lists lexicographically,
    anything else is a [TypeError]. *)
Fixpoint py_lt (a b : value) {struct a} : result bool :=
  match a, b with
  | VStr s, VStr t => Ok (String.ltb s t)
  | VList xs, VList ys =>
      (fix go (xs ys : list value) : result bool :=
         match xs, ys with
         | [], [] => Ok false
         | [], _ :: _ => Ok true
         | _ :: _, [] => Ok false
         | x :: xs', y :: ys' => if py_eq x y then go xs' ys' else py_lt x y
         end) xs ys
  | VInt x, VFloat g => Ok (number_ltb (Dyadic x 0) (number_of_float g))
  | VInt x, _ =>
      match as_int b with Some y => Ok (x <? y) | None => not_ordered a b end
  | VBool x, VFloat g =>
      Ok (number_ltb (Dyadic (if x then 1 else 0) 0) (number_of_float g))
  | VBool x, _ =>
      match as_int b with
      | Some y => Ok ((if x then 1 else 0) <? y)
      | None => not_ordered a b
      end
  | VFloat f, _ =>
      match as_number b with
      | Some y => Ok (number_ltb (number_of_float f) y)
      | None => not_ordered a b
      end
  | _, _ => not_ordered a b
  end.

Definition rbind {A B} (r : result A) (k : A -> result B) : result B :=
  match r with
  | Ok a => k a
  | Raise e => Raise e
  end.

(** The key of every element, in order; the first failure ends it. *)
Fixpoint decorate (key : value -> result value) (l : list value)
  : result (list (value * value)) :=
  match l with
  | [] => Ok []
  | x :: l' =>
      rbind (key x) (fun k =>
      rbind (decorate key l') (fun kl => Ok ((k, x) :: kl)))
  end.

(** Stable insertion: [p] goes in front of the first entry whose key is
    not below its own, so it stays ahead of the entries it ties with. *)
Fixpoint insert_keyed (p : value * value) (l : list (value * value))
  : result (list (value * value)) :=
  match l with
  | [] => Ok [p]
  | q :: l' =>
      rbind (py_lt (fst q) (fst p)) (fun below =>
      if below
      then rbind (insert_keyed p l') (fun r => Ok (q :: r))
      else Ok (p :: q :: l'))
  end.

Fixpoint sort_keyed (l : list (value * value)) : result (list (value * value)) :=
  match l with
  | [] => Ok []
  | p :: l' => rbind (sort_keyed l') (insert_keyed p)
  end.

(** [l.sort(key=key, reverse=reverse)] as a function.  A stable sort has
    one answer on keys that [<] orders, so the insertion sort stands for
    CPython's; with [reverse] CPython reverses the list before and after
    the ascending sort, which keeps ties in their original order. *)
Definition list_sort (key : value -> result value) (reverse : bool)
                     (l : list value) : result (list value) :=
  rbind (decorate key l) (fun kl =>
  rbind (sort_keyed (if reverse then rev kl else kl)) (fun sorted =>
  Ok (map snd (if reverse then rev sorted else sorted)))).

(** [sorted(x, key=key, reverse=reverse)]. *)
Definition py_sorted (x : value) (key : value -> result value)
                     (reverse : bool) : result (list value) :=
  rbind (py_iter x) (list_sort key reverse).

(** ** Control structure shared by the scripts *)

Definition nl : string := String (ascii_of_N 10) "".

(** [for x in l: body]. *)
Fixpoint for_each {A} (l : list A) (body : A -> M unit) : M unit :=
  match l with
  | [] => ret tt
  | x :: l' => body x ;;; for_each l' body
  end.

(** [for i, x in enumerate(l, start): body]. *)
Fixpoint for_enumerate {A} (start : Z) (l : list A) (body : Z -> A -> M unit)
  : M unit :=
  match l with
  | [] => ret tt
  | x :: l' => body start x ;;; for_enumerate (start + 1) l' body
  end.

(** [[f(x) for x in l]]. *)
Fixpoint map_result {A B} (f : A -> result B) (l : list A) : result (list B) :=
  match l with
  | [] => Ok []
  | x :: l' => rbind (f x) (fun y => rbind (map_result f l') (fun r => Ok (y :: r)))
  end.

(** [response.raise_for_status()]: the 4xx and 5xx statuses raise. *)
Definition raise_for_status (r : response) : M unit :=
  if (400 <=? status_code r) && (status_code r <? 500)
  then raise (mkExn HTTPError
                (str_of_Z (status_code r) ++ " Client Error: " ++ reason r
                 ++ " for url: " ++ resp_url r))
  else if (500 <=? status_code r) && (status_code r <? 600)
  then raise (mkExn HTTPError
                (str_of_Z (status_code r) ++ " Server Error: " ++ reason r
                 ++ " for url: " ++ resp_url r))
  else ret tt.

(** ** [scripts/test_trends.py] *)

Module test_trends.

(** The credential literal of the source is not reproduced. *)
Definition API_KEY : string := "<api-key>".
Definition BASE_URL : string := "https://lunarcrush.com/api4/public".

Definition get_json (url : string) : M value :=
  try_except
    (res <- requests_get url [("Authorization", "Bearer " ++ API_KEY)] (Some 10) ;;
     if status_code res =? 200
     then (body <- lift (json res) ;; lift (py_get body "data" (VList [])))
     else (print ("Failed " ++ url ++ ": " ++ str_of_Z (status_code res)) ;;;
           ret (VList [])))
    any_Exception
    (fun e => print ("Error " ++ url ++ ": " ++ exn_msg e) ;;; ret (VList [])).

Definition ignored : list string := ["BTC"; "ETH"; "USDT"; "USDC"; "SOL"].

(** [[c for c in coins if c.get('symbol') not in ignored]]. *)
Fixpoint select_others (coins : list value) : result (list value) :=
  match coins with
  | [] => Ok []
  | c :: coins' =>
      rbind (py_get c "symbol" VNone) (fun sym =>
      rbind (select_others coins') (fun r =>
      Ok (if not_in_strs sym ignored then c :: r else r)))
  end.

Definition alt_rank_key (x : value) : result value := py_get x "alt_rank" (VInt 9999).

(** [others] after the filter and [others.sort(key=...)]. *)
Definition ranked_others (coins : value) : result (list value) :=
  rbind (py_iter coins) (fun cs =>
  rbind (select_others cs) (list_sort alt_rank_key false)).

Definition coin_line (c : value) : result string :=
  rbind (py_get c "name" VNone) (fun name =>
  rbind (py_get c "symbol" VNone) (fun sym =>
  rbind (py_get c "alt_rank" VNone) (fun rank =>
  rbind (py_get c "social_volume_24h" VNone) (fun vol =>
  Ok ("   - " ++ py_str name ++ " (" ++ py_str sym ++ ") | AltRank: "
      ++ py_str rank ++ " | Vol24h: " ++ py_str vol))))).

(** The block under [if coins:]. *)
Definition coins_block (coins : value) : M unit :=
  first <- lift (py_getitem_0 coins) ;;
  keys <- lift (py_keys first) ;;
  print ("Sample Coin Metrics keys: " ++ py_str keys) ;;;
  others <- lift (ranked_others coins) ;;
  print "Top 5 by AltRank (Excluding Majors):" ;;;
  for_each (firstn 5 others) (fun c => line <- lift (coin_line c) ;; print line).

(** What the script prints for the fetched [topics]. *)
Definition render_topics (topics : value) : M unit :=
  n <- lift (py_len topics) ;;
  print ("Found " ++ str_of_Z n ++ " topics.") ;;;
  shown <- lift (rbind (py_slice_to 10 topics) py_iter) ;;
  for_each shown (fun t =>
    topic <- lift (py_get t "topic" (VStr "N/A")) ;;
    vol <- lift (py_get t "social_volume_24h" (VInt 0)) ;;
    print ("   - " ++ py_str topic ++ " (Volume: " ++ py_str vol ++ ")")).

Definition topics_section : M unit :=
  print (nl ++ "1. CHECKING SOCIAL TOPICS (/topics/list/v1)...") ;;;
  topics <- get_json (BASE_URL ++ "/topics/list/v1") ;;
  render_topics topics.

Definition categories_section : M unit :=
  print (nl ++ "2. CHECKING CATEGORIES (/categories/list/v1)...") ;;;
  cats <- get_json (BASE_URL ++ "/categories/list/v1") ;;
  n <- lift (py_len cats) ;;
  print ("Found " ++ str_of_Z n ++ " categories.") ;;;
  shown <- lift (rbind (py_slice_to 5 cats) py_iter) ;;
  for_each shown (fun c =>
    cat <- lift (py_get c "category" (VStr "N/A")) ;;
    inter <- lift (py_get c "interactions_24h" (VInt 0)) ;;
    print ("   - " ++ py_str cat ++ " (Interactions: " ++ py_str inter ++ ")")).

Definition coins_section : M unit :=
  print (nl ++ "3. CHECKING HIGH ALTRANK COINS (Removing BTC/ETH)...") ;;;
  coins <- get_json (BASE_URL ++ "/coins/list/v2") ;;
  if truthy coins then coins_block coins else ret tt.

(** The script, top to bottom. *)
Definition main : M unit :=
  print "--- DIAGNOSTIC: FINDING ACTIONABLE TRENDS ---" ;;;
  topics_section ;;;
  categories_section ;;;
  coins_section.

End test_trends.

(** ** [scripts/explore_smart_trends.py] *)

Module explore_smart_trends.

Definition API_KEY : string := "<api-key>".
Definition BASE_URL : string := "https://lunarcrush.com/api4/public".

Definition get_json (url : string) : M value :=
  print (nl ++ "> Fetching: " ++ url) ;;;
  try_except
    (res <- requests_get url [("Authorization", "Bearer " ++ API_KEY)] (Some 15) ;;
     if status_code res =? 200
     then (data <- lift (json res) ;; lift (py_get data "data" (VList [])))
     else (print ("❌ Error " ++ str_of_Z (status_code res) ++ ": "
                  ++ take_characters 200 (text res)) ;;;
           ret VNone))
    any_Exception
    (fun e => print ("❌ Exception: " ++ exn_msg e) ;;; ret VNone).

Definition interactions_key (x : value) : result value :=
  py_get x "interactions_24h" (VInt 0).

(** [sorted(topics, key=..., reverse=True)[:5]]. *)
Definition top_topics_of (topics : value) : result (list value) :=
  rbind (py_sorted topics interactions_key true) (fun sorted_topics =>
  Ok (firstn 5 sorted_topics)).

Definition topic_line (t : value) : result string :=
  rbind (py_get t "topic" VNone) (fun topic_id =>
  rbind (py_get t "social_volume_24h" VNone) (fun vol =>
  rbind (py_get t "interactions_24h" VNone) (fun inter =>
  Ok ("   - [" ++ py_str topic_id ++ "] (Vol: " ++ py_str vol
      ++ ", Interactions: " ++ py_str inter ++ ")")))).

(** The block under [if top_topics:]. *)
Definition deep_dive (first : value) : M unit :=
  star <- lift (py_get first "topic" VNone) ;;
  let star_topic := py_str star in
  print (nl ++ "2️⃣  Deep Dive into Top Topic: '" ++ star_topic ++ "'") ;;;
  print ("   > Asking LunarCrush: 'WhatsUp with " ++ star_topic ++ "?'...") ;;;
  whatsup <- get_json (BASE_URL ++ "/topic/" ++ star_topic ++ "/whatsup/v1") ;;
  (if truthy whatsup
   then print ("   🧠 AI SUMMARY: " ++ py_str whatsup)
   else ret tt) ;;;
  print ("   > Fetching Top News for " ++ star_topic ++ "...") ;;;
  news <- get_json (BASE_URL ++ "/topic/" ++ star_topic ++ "/news/v1") ;;
  if truthy news
  then (shown <- lift (rbind (py_slice_to 3 news) py_iter) ;;
        for_enumerate 0 shown (fun i n =>
          title <- lift (py_get n "post_title" VNone) ;;
          who <- lift (py_get n "creator_display_name" VNone) ;;
          print ("     " ++ str_of_Z (i + 1) ++ ". " ++ py_str title
                 ++ " (" ++ py_str who ++ ")")))
  else ret tt.

(** The block under [if topics:]. *)
Definition topics_block (topics : value) : M unit :=
  n <- lift (py_len topics) ;;
  print ("   Found " ++ str_of_Z n ++ " topics.") ;;;
  top_topics <- lift (top_topics_of topics) ;;
  for_each top_topics (fun t => line <- lift (topic_line t) ;; print line) ;;;
  match top_topics with
  | first :: _ => deep_dive first
  | [] => ret tt
  end.

(** The block under [if categories:]. *)
Definition categories_block (categories : value) : M unit :=
  sorted_cats <- lift (py_sorted categories interactions_key true) ;;
  print "   Top 5 Categories:" ;;;
  for_each (firstn 5 sorted_cats) (fun c =>
    cat_id <- lift (py_get c "category" VNone) ;;
    name <- lift (py_get c "name" VNone) ;;
    inter <- lift (py_get c "interactions_24h" VNone) ;;
    print ("   - " ++ py_str name ++ " (Interactions: " ++ py_str inter ++ ")")) ;;;
  match sorted_cats with
  | first :: _ =>
      top <- lift (py_get first "category" VNone) ;;
      let top_cat := py_str top in
      print (nl ++ "   > News for Top Category: " ++ top_cat) ;;;
      cat_news <- get_json (BASE_URL ++ "/category/" ++ top_cat ++ "/news/v1") ;;
      if truthy cat_news
      then (shown <- lift (rbind (py_slice_to 3 cat_news) py_iter) ;;
            for_enumerate 0 shown (fun i n =>
              title <- lift (py_get n "post_title" VNone) ;;
              print ("     " ++ str_of_Z (i + 1) ++ ". " ++ py_str title)))
      else ret tt
  | [] => ret tt
  end.

(** What the script prints for the fetched [topics]. *)
Definition render_topics (topics : value) : M unit :=
  if truthy topics then topics_block topics else ret tt.

Definition topics_section : M unit :=
  print "1️⃣  Identifying Meta Narratives (Topics)..." ;;;
  topics <- get_json (BASE_URL ++ "/topics/list/v1") ;;
  render_topics topics.

Definition categories_section : M unit :=
  print (nl ++ "3️⃣  Identifying Market Sectors (Categories)...") ;;;
  categories <- get_json (BASE_URL ++ "/categories/list/v1") ;;
  if truthy categories then categories_block categories else ret tt.

(** The script, top to bottom. *)
Definition main : M unit :=
  print ("--- SMART TREND DISCOVERY (News & Narratives) ---" ++ nl) ;;;
  topics_section ;;;
  categories_section.

End explore_smart_trends.

(** ** [scripts/fetch_lunarcrush.py] *)

Module fetch_lunarcrush.

Definition LUNAR_API_KEY : string := "<api-key>".
Definition GEMINI_API_KEY : string := "<api-key>".
Definition LUNAR_URL : string :=
  "https://lunarcrush.com/api4/public/category/cryptocurrencies/news/v1".

Definition fetch_lunarcrush_data : M value :=
  let headers := [("Authorization", "Bearer " ++ LUNAR_API_KEY)] in
  try_except
    (print ("Fetching data from " ++ LUNAR_URL ++ "...") ;;;
     response <- requests_get LUNAR_URL headers None ;;
     raise_for_status response ;;;
     lift (json response))
    is_RequestException
    (fun e => print ("Error fetching LunarCrush data: " ++ exn_msg e) ;;; ret VNone).

(** One element of the list comprehension that builds [news_text]. *)
Definition news_line (item : value) : result string :=
  rbind (py_get item "post_title" VNone) (fun title =>
  rbind (py_get item "creator_display_name" VNone) (fun source =>
  rbind (py_get item "post_sentiment" VNone) (fun sentiment =>
  rbind (py_get item "interactions_total" VNone) (fun interactions =>
  Ok ("- " ++ py_str title ++ " (Source: " ++ py_str source
      ++ ", Sentiment: " ++ py_str sentiment
      ++ ", Interactions: " ++ py_str interactions ++ ")"))))).

Definition prompt_head : string :=
  nl ++ "    You are a Chief Marketing Officer (CMO) for a top crypto protocol. "
  ++ nl ++ "    Analyze the following recent news headlines and social metrics."
  ++ nl ++ "    "
  ++ nl ++ "    DATA:"
  ++ nl ++ "    ".

Definition prompt_tail : string :=
  nl ++ "    "
  ++ nl ++ "    YOUR TASK:"
  ++ nl ++ "    1. Identify the single most important narrative driving the market right now."
  ++ nl ++ "    2. Connect the dots between 2-3 seemingly separate stories."
  ++ nl ++ "    3. Provide a brief " ++ String dquote "CMO Take strategy"
  ++ String dquote " on how we should position our brand today given this news."
  ++ nl ++ "    "
  ++ nl ++ "    Keep it concise, punchy, and actionable. No fluff."
  ++ nl ++ "    ".

(** The prompt of [get_ai_analysis] for its argument. *)
Definition build_prompt (news_items : list value) : result string :=
  let top_news := firstn 15 news_items in
  rbind (map_result news_line top_news) (fun lines =>
  let news_text := String.concat nl lines in
  Ok (prompt_head ++ news_text ++ prompt_tail)).

Definition fallback : string := "Could not generate AI analysis.".

(** [result['candidates'][0]['content']['parts'][0]['text']]. *)
Definition first_candidate_text (res : value) : result value :=
  rbind (py_getitem_str res "candidates") (fun candidates =>
  rbind (py_getitem_0 candidates) (fun candidate =>
  rbind (py_getitem_str candidate "content") (fun content =>
  rbind (py_getitem_str content "parts") (fun parts =>
  rbind (py_getitem_0 parts) (fun part =>
  py_getitem_str part "text"))))).

Definition gemini_url : string :=
  "https://generativelanguage.googleapis.com/v1beta/models/gemini-2.0-flash:generateContent?key="
  ++ GEMINI_API_KEY.

(** The [payload] dictionary around the prompt. *)
Definition payload_of (prompt : string) : value :=
  VDict [("contents", VList [VDict [("parts", VList [VDict [("text", VStr prompt)]])]])].

(** [get_ai_analysis]; its one caller passes the list [sorted] returns. *)
Definition get_ai_analysis (news_items : list value) : M value :=
  print "Generating AI Analysis..." ;;;
  prompt <- lift (build_prompt news_items) ;;
  let url := gemini_url in
  let payload := payload_of prompt in
  try_except
    (response <- requests_post url payload ;;
     raise_for_status response ;;;
     result <- lift (json response) ;;
     lift (first_candidate_text result))
    any_Exception
    (fun e => print ("Error generating AI analysis: " ++ exn_msg e) ;;;
              ret (VStr fallback)).

Definition interactions_key (x : value) : result value :=
  py_get x "interactions_total" (VInt 0).

(** [sorted(data, key=..., reverse=True)] of [analyze_data]. *)
Definition rank (data : value) : result (list value) :=
  py_sorted data interactions_key true.

(** [sorted_data[:5]], the stories the report lists. *)
Definition top_stories (sorted_data : list value) : list value :=
  firstn 5 sorted_data.

Definition rule : string := "========================================".
Definition dashes : string := "------------------------------".

Definition analyze_data (json_data : value) : M unit :=
  no_data <- (if negb (truthy json_data) then ret true
              else has <- lift (py_contains_key json_data "data") ;; ret (negb has)) ;;
  if no_data : bool then print "No valid data found to analyze."
  else
    data <- lift (py_getitem_str json_data "data") ;;
    sorted_data <- lift (rank data) ;;
    if negb (truthy data) then print "No posts found."
    else
      print (nl ++ rule) ;;;
      date <- ask_today ;;
      print ("LUNARCRUSH INTELLIGENCE BRIEF (" ++ date ++ ")") ;;;
      print rule ;;;
      ai_insight <- get_ai_analysis sorted_data ;;
      print (nl ++ "🧠 AI STRATEGIC ANALYSIS (CMO VIEW):") ;;;
      print dashes ;;;
      print (py_str ai_insight) ;;;
      print dashes ;;;
      print (nl ++ "📰 TOP STORIES (By Market Impact):") ;;;
      for_enumerate 1 (top_stories sorted_data) (fun i post =>
        title <- lift (py_get post "post_title" (VStr "No Title")) ;;
        interactions <- lift (py_get post "interactions_total" (VInt 0)) ;;
        source <- lift (py_get post "creator_display_name" (VStr "Unknown")) ;;
        print (str_of_Z i ++ ". " ++ py_str title) ;;;
        shown <- lift (format_comma interactions) ;;
        print ("   └─ " ++ py_str source ++ " | 🔥 " ++ shown ++ " interactions")) ;;;
      print (nl ++ rule).

(** The block under [if __name__ == "__main__":]. *)
Definition main : M unit :=
  result <- fetch_lunarcrush_data ;;
  if truthy result then analyze_data result else ret tt.

End fetch_lunarcrush.

(** * Vocabulary of the statements *)

(** ** Sorting on integer keys

    The pure counterparts of the sort, used to state what [list_sort]
    returns when every key is an integer. *)

Section IntKeys.

Variable kz : value -> Z.

Fixpoint insert_by (x : value) (l : list value) : list value :=
  match l with
  | [] => [x]
  | y :: l' => if kz y <? kz x then y :: insert_by x l' else x :: y :: l'
  end.

Fixpoint sort_by (l : list value) : list value :=
  match l with
  | [] => []
  | x :: l' => insert_by x (sort_by l')
  end.

(** What [reverse=True] computes on integer keys. *)
Definition sort_desc (l : list value) : list value := rev (sort_by (rev l)).

Definition ascending (l : list value) : Prop :=
  StronglySorted (fun a b => kz a <= kz b) l.

Definition descending (l : list value) : Prop :=
  StronglySorted (fun a b => kz b <= kz a) l.

(** The records of [l] whose key is [z], in the order [l] has them. *)
Definition with_key (z : Z) (l : list value) : list value :=
  filter (fun x => kz x =? z) l.

(** [s] is [l] stable-sorted in descending key order. *)
Definition ranked_desc (l s : list value) : Prop :=
  Permutation s l /\ descending s /\ forall z, with_key z s = with_key z l.

(** [s] is [l] stable-sorted in ascending key order. *)
Definition ranked_asc (l s : list value) : Prop :=
  Permutation s l /\ ascending s /\ forall z, with_key z s = with_key z l.

End IntKeys.

(** A record: a [dict] whose field [k] is absent or an integer. *)
Definition numeric_field (k : string) (r : value) : Prop :=
  exists d, r = VDict d /\
            (assoc k d = None \/ exists z, assoc k d = Some (VInt z)).

(** The integer [r.get(k, default)] reads from such a record. *)
Definition field_or (k : string) (default : Z) (r : value) : Z :=
  match r with
  | VDict d => match assoc k d with Some (VInt z) => z | _ => default end
  | _ => default
  end.

Definition lacks (k : string) (r : value) : Prop :=
  exists d, r = VDict d /\ assoc k d = None.

Definition has_int (k : string) (r : value) (z : Z) : Prop :=
  exists d, r = VDict d /\ assoc k d = Some (VInt z).

(** The key and the record as [list.sort] pairs them. *)
Definition decorated (kz : value -> Z) (x : value) : value * value :=
  (VInt (kz x), x).

(** Every key of [l] is the integer [kz] reads. *)
Definition int_keyed (key : value -> result value) (kz : value -> Z)
                     (l : list value) : Prop :=
  Forall (fun x => key x = Ok (VInt (kz x))) l.

(** The two steps of [analyze_data] that pick the stories of the report. *)
Definition top_stories_of (data : value) : result (list value) :=
  rbind (fetch_lunarcrush.rank data) (fun s => Ok (fetch_lunarcrush.top_stories s)).

(** The test of the list comprehension, on a record. *)
Definition kept (c : value) : bool :=
  match py_get c "symbol" VNone with
  | Ok sym => not_in_strs sym test_trends.ignored
  | Raise _ => false
  end.

Definition is_dict (v : value) : Prop := exists d, v = VDict d.

(** Ranked records that have an AltRank satisfying [p] come before the
    records that have none. *)
Definition missing_sort_after (p : Z -> Prop) (others : list value) : Prop :=
  forall i j a b z,
    nth_error others i = Some a -> nth_error others j = Some b ->
    has_int "alt_rank" a z -> p z -> lacks "alt_rank" b -> (i < j)%nat.

(** The answer to [r] is a failure: an exception, or a status other
    than 200. *)
Definition fails (w : env) (r : request) : Prop :=
  match send w r with
  | Raise _ => True
  | Ok res => status_code res <> 200
  end.

(** The line each helper prints for a failed request. *)
Definition failed_line (url : string) (answer : result response) : string :=
  match answer with
  | Ok res => "Failed " ++ url ++ ": " ++ str_of_Z (status_code res)
  | Raise e => "Error " ++ url ++ ": " ++ exn_msg e
  end.

Definition error_line (answer : result response) : string :=
  match answer with
  | Ok res => "❌ Error " ++ str_of_Z (status_code res) ++ ": "
              ++ take_characters 200 (text res)
  | Raise e => "❌ Exception: " ++ exn_msg e
  end.

Definition trends_request (url : string) : request :=
  get_request url test_trends.API_KEY (Some 10).

Definition explore_request (url : string) : request :=
  get_request url explore_smart_trends.API_KEY (Some 15).

(** [data.get('data', [])] on the object [d]. *)
Definition data_or_empty (d : list (string * value)) : value :=
  match assoc "data" d with
  | Some v => v
  | None => VList []
  end.

Definition lunar_request : request :=
  get_request fetch_lunarcrush.LUNAR_URL fetch_lunarcrush.LUNAR_API_KEY None.

(** [str(item.get(k))]: the field as the record has it, [None] if absent. *)
Definition shown (item : value) (k : string) : string :=
  match item with
  | VDict d => match assoc k d with Some v => py_str v | None => "None" end
  | _ => "None"
  end.

Definition expected_line (item : value) : string :=
  "- " ++ shown item "post_title"
  ++ " (Source: " ++ shown item "creator_display_name"
  ++ ", Sentiment: " ++ shown item "post_sentiment"
  ++ ", Interactions: " ++ shown item "interactions_total" ++ ")".

(** The POST that carries [prompt]. *)
Definition summary_request (prompt : string) : request :=
  mkRequest POST fetch_lunarcrush.gemini_url []
            (Some (fetch_lunarcrush.payload_of prompt)) None.

(** The request for the summary failed: a transport error, a status that
    [raise_for_status] rejects, a body that is not JSON, or JSON without
    the candidates structure. *)
Definition summary_fails (answer : result response) : Prop :=
  match answer with
  | Raise _ => True
  | Ok res =>
      400 <= status_code res < 600 \/
      match json res with
      | Raise _ => True
      | Ok body => exists e, fetch_lunarcrush.first_candidate_text body = Raise e
      end
  end.

(** The message of the exception a failed summary request ends in. *)
Definition summary_error (answer : result response) : string :=
  match answer with
  | Raise e => exn_msg e
  | Ok res =>
      if (400 <=? status_code res) && (status_code res <? 500)
      then str_of_Z (status_code res) ++ " Client Error: " ++ reason res
           ++ " for url: " ++ resp_url res
      else if (500 <=? status_code res) && (status_code res <? 600)
      then str_of_Z (status_code res) ++ " Server Error: " ++ reason res
           ++ " for url: " ++ resp_url res
      else match json res with
           | Raise e => exn_msg e
           | Ok body =>
               match fetch_lunarcrush.first_candidate_text body with
               | Raise e => exn_msg e
               | Ok _ => ""
               end
           end
  end.

(** A record that holds JSON [null] under [k]. *)
Definition null_field (k : string) (r : value) : Prop :=
  exists d, r = VDict d /\ assoc k d = Some VNone.

(** Why [response.json().get('data', [])] fails on a body: the text is
    not JSON, or the JSON is not an object. *)
Definition body_error (parsed : result value) : option string :=
  match parsed with
  | Raise e => Some (exn_msg e)
  | Ok (VDict _) => None
  | Ok v => Some ("'" ++ type_name v ++ "' object has no attribute 'get'")
  end.

(** The status is one [raise_for_status] rejects. *)
Definition rejected_status (res : response) : Prop :=
  400 <= status_code res < 600.

(** The message of the [HTTPError] of [raise_for_status]. *)
Definition http_error_msg (res : response) : string :=
  str_of_Z (status_code res)
  ++ (if status_code res <? 500 then " Client Error: " else " Server Error: ")
  ++ reason res ++ " for url: " ++ resp_url res.




Definition fetching_line : string :=
  "Fetching data from " ++ fetch_lunarcrush.LUNAR_URL ++ "...".








(** The lines of a text: the pieces between its newline characters, as
    [split('\n')] returns them. *)
Fixpoint lines_of (s : string) : list string :=
  match s with
  | "" => [""]
  | String c s' =>
      if Ascii.eqb c (ascii_of_N 10) then "" :: lines_of s'
      else match lines_of s' with
           | l :: ls => String c l :: ls
           | [] => [String c ""]
           end
  end.

Definition single_line (s : string) : bool := negb (has_char (ascii_of_N 10) s).

(** The four fields a line of the prompt interpolates. *)
Definition prompt_fields : list string :=
  ["post_title"; "creator_display_name"; "post_sentiment"; "interactions_total"].

(** No field of the record is shown with a newline in it. *)
Definition one_line_record (item : value) : bool :=
  forallb (fun k => single_line (shown item k)) prompt_fields.

(** The lines of the prompt around the entries [entries]: the template
    indents the first entry, and leaves an indented empty line when there
    is none. *)
Definition data_lines (entries : list string) : list string :=
  match entries with
  | [] => ["    "]
  | e :: rest => ("    " ++ e) :: rest
  end.

Definition prompt_lines (entries : list string) : list string :=
  (removelast (lines_of fetch_lunarcrush.prompt_head)
   ++ data_lines entries
   ++ tl (lines_of fetch_lunarcrush.prompt_tail))%list.

(** C8 as the specification words it: every record among the first 15
    has one line of the prompt, which is its entry. *)
Definition one_line_per_record (news_items : list value) : Prop :=
  forall prompt,
    fetch_lunarcrush.build_prompt news_items = Ok prompt ->
    lines_of prompt = prompt_lines (map expected_line (firstn 15 news_items)).

(** ** Sample records and worlds *)

Definition sample_topics : list value :=
  [VDict [("topic", VStr "defi"); ("interactions_24h", VInt 20)];
   VDict [("topic", VStr "nft")];
   VDict [("topic", VStr "ai"); ("interactions_24h", VInt 50)];
   VDict [("topic", VStr "l2"); ("interactions_24h", VInt 20)]].

Definition sample_posts : list value :=
  [VDict [("post_title", VStr "a"); ("interactions_total", VInt 7)];
   VDict [("post_title", VStr "b"); ("interactions_total", VInt 9)];
   VDict [("post_title", VStr "c")]].

Definition unranked_coin : value := VDict [("symbol", VStr "NEW")].
Definition late_coin : value := VDict [("symbol", VStr "OLD"); ("alt_rank", VInt 10000)].
Definition early_coin : value := VDict [("symbol", VStr "HOT"); ("alt_rank", VInt 3)].

Definition sample_coins : value :=
  VList [VDict [("name", VStr "Bitcoin"); ("symbol", VStr "BTC"); ("alt_rank", VInt 1)];
         VDict [("name", VStr "Pepe"); ("symbol", VStr "PEPE"); ("alt_rank", VInt 4)];
         VDict [("name", VStr "Solana"); ("symbol", VStr "SOL"); ("alt_rank", VInt 2)];
         VDict [("name", VStr "Bonk"); ("symbol", VStr "BONK"); ("alt_rank", VInt 3)]].

Definition offline : env :=
  mkEnv (fun _ => Raise (mkExn RequestException "network unreachable")) "2025-01-01".

(** A world whose server answers every request with status 500. *)
Definition server_error : env :=
  mkEnv (fun r => Ok (mkResponse 500 "Internal Server Error" (req_url r)
                        "upstream failure"
                        (Raise (mkExn JSONDecodeError
                                  "Expecting value: line 1 column 1 (char 0)"))))
        "2025-01-01".

(** A world whose server answers every request with status [status] and
    the JSON [body]. *)
Definition answering (status : Z) (body : value) : env :=
  mkEnv (fun r => Ok (mkResponse status "OK" (req_url r) (py_repr body) (Ok body)))
        "2025-01-01".

Definition empty_data_response : response :=
  mkResponse 200 "OK" "https://lunarcrush.com/api4/public/topics/list/v1"
             "{'data': []}" (Ok (VDict [("data", VList [])])).

(** A world whose server answers every request 200 with [data: []]. *)
Definition empty_data_world : env :=
  mkEnv (fun _ => Ok empty_data_response) "2025-01-01".

Definition sample_news : list value :=
  [VDict [("post_title", VStr "ETF inflows hit a record");
          ("creator_display_name", VStr "CoinDesk");
          ("post_sentiment", VInt 3);
          ("interactions_total", VInt 120450)];
   VDict [("post_title", VStr "Bridge exploit drains funds");
          ("interactions_total", VInt 98000)]].

Definition candidates_body (summary : string) : value :=
  VDict [("candidates",
          VList [VDict [("content",
                         VDict [("parts", VList [VDict [("text", VStr summary)]])])]])].

Definition null_topics : list value :=
  [VDict [("topic", VStr "memes"); ("interactions_24h", VNone)];
   VDict [("topic", VStr "defi"); ("interactions_24h", VInt 3)]].

(** A world where the transport fails with an exception that is not one
    of [requests]. *)
Definition broken_transport : env :=
  mkEnv (fun _ => Raise (mkExn ValueError "check_hostname requires server_hostname"))
        "2025-01-01".




Definition seven_topics : list value :=
  [VDict [("topic", VStr "defi"); ("interactions_24h", VInt 20)];
   VDict [("topic", VStr "nft")];
   VDict [("topic", VStr "ai"); ("interactions_24h", VInt 50)];
   VDict [("topic", VStr "l2"); ("interactions_24h", VInt 20)];
   VDict [("topic", VStr "memes"); ("interactions_24h", VInt 35)];
   VDict [("topic", VStr "dao"); ("interactions_24h", VInt 2)];
   VDict [("topic", VStr "rwa"); ("interactions_24h", VInt 41)]].

Definition six_posts : list value :=
  [VDict [("post_title", VStr "a"); ("interactions_total", VInt 7)];
   VDict [("post_title", VStr "b"); ("interactions_total", VInt 9)];
   VDict [("post_title", VStr "c")];
   VDict [("post_title", VStr "d"); ("interactions_total", VInt 1200)];
   VDict [("post_title", VStr "e"); ("interactions_total", VInt 7)];
   VDict [("post_title", VStr "f"); ("interactions_total", VInt 3)]].

Definition nameless_coin : value := VDict [("name", VStr "Mystery"); ("alt_rank", VInt 6)].

(** Nine coins: two majors, one coin without symbol, one without rank. *)
Definition nine_coins : list value :=
  [VDict [("name", VStr "Bitcoin"); ("symbol", VStr "BTC"); ("alt_rank", VInt 1)];
   VDict [("name", VStr "Pepe"); ("symbol", VStr "PEPE"); ("alt_rank", VInt 40)];
   nameless_coin;
   VDict [("name", VStr "Solana"); ("symbol", VStr "SOL"); ("alt_rank", VInt 2)];
   VDict [("name", VStr "Bonk"); ("symbol", VStr "BONK"); ("alt_rank", VInt 3)];
   unranked_coin;
   VDict [("name", VStr "Arbitrum"); ("symbol", VStr "ARB"); ("alt_rank", VInt 12)];
   VDict [("name", VStr "Render"); ("symbol", VStr "RNDR"); ("alt_rank", VInt 5)];
   VDict [("name", VStr "Celestia"); ("symbol", VStr "TIA"); ("alt_rank", VInt 8)]].

(** Sixteen news records; the sentiment and some counts are floats (3.1
    is the binary64 nearest to it). *)
Definition sixteen_news : list value :=
  [VDict [("post_title", VStr "ETF inflows hit a record");
          ("creator_display_name", VStr "CoinDesk");
          ("post_sentiment", VFloat (FFinite false 6980579422424269 (-51)));
          ("interactions_total", VInt 120450)];
   VDict [("post_title", VStr "Bridge exploit drains funds");
          ("post_sentiment", VFloat (FFinite false 5 (-1)));
          ("interactions_total", VFloat (FFinite false 196001 (-1)))];
   VDict [("post_title", VStr "Layer 2 fees fall");
          ("creator_display_name", VStr "The Block");
          ("post_sentiment", VFloat (FFinite false 3 0));
          ("interactions_total", VInt 54000)];
   VDict [("post_title", VStr "Stablecoin bill advances");
          ("creator_display_name", VStr "Reuters");
          ("post_sentiment", VFloat (FFinite false 6417629469002957 (-51)));
          ("interactions_total", VInt 41200)];
   VDict [("post_title", VStr "Story 5"); ("post_sentiment", VInt 3)];
   VDict [("post_title", VStr "Story 6"); ("interactions_total", VInt 6)];
   VDict [("post_title", VStr "Story 7"); ("creator_display_name", VNone)];
   VDict [("post_title", VStr "Story 8")];
   VDict [("post_title", VStr "Story 9")];
   VDict [("post_title", VStr "Story 10")];
   VDict [("post_title", VStr "Story 11")];
   VDict [("post_title", VStr "Story 12")];
   VDict [("post_title", VStr "Story 13")];
   VDict [("post_title", VStr "Story 14")];
   VDict [("post_title", VStr "Story 15")];
   VDict [("post_title", VStr "Story 16")]].

(** A record whose title runs over two lines. *)
Definition two_line_story : value :=
  VDict [("post_title", VStr ("Markets rally" ++ nl ++ "Live updates"));
         ("interactions_total", VInt 10)].

(** * Theorems *)

Ltac numeric_record :=
  eexists; split;
  [reflexivity | first [left; reflexivity | right; eexists; reflexivity]].

(** ** The model on small inputs *)

Example thousands_examples :
  map thousands [0; 999; 1000; 1234567; -45000]
  = ["0"; "999"; "1,000"; "1,234,567"; "-45,000"].
Proof. reflexivity. Qed.

Example py_str_examples :
  map py_str [VNone; VInt (-7); VStr "a'b";
              VList [VStr "ab"; VBool true];
              VDict [("k", VStr "x"); ("n", VInt 3)]]
  = ["None"; "-7"; "a'b"; "['ab', True]"; "{'k': 'x', 'n': 3}"].
Proof. reflexivity. Qed.

Example characters_are_code_points :
  py_len (VStr "café 🔥") = Ok 6 /\
  py_slice_to 4 (VStr "café 🔥") = Ok (VStr "café") /\
  py_getitem_0 (VStr "é") = Ok (VStr "é") /\
  py_repr (VList [VStr "café 🔥"]) = "['café 🔥']" /\
  py_repr (VStr ("a" ++ String (ascii_of_N 194) (String (ascii_of_N 160) "b")))
  = "'a\xa0b'".
Proof. vm_compute. repeat split. Qed.

Example float_repr_examples :
  map py_str
    [VFloat (FFinite false 6980579422424269 (-51));
     VFloat (FFinite false 3 0);
     VFloat (FFinite false 3602879701896397 (-55));
     VFloat (FFinite false 1351079888211149 (-52));
     VFloat (FFinite false 152587890625 16);
     VFloat (FFinite false 5902958103587057 (-69));
     VFloat (FFinite false 1 (-1074));
     VFloat (FFinite false 9007199254740991 971);
     VFloat (FFinite true 2469 (-1));
     VFloat (FZero true);
     VFloat (FInf false)]
  = ["3.1"; "3.0"; "0.1"; "0.30000000000000004"; "1e+16"; "1e-05"; "5e-324";
     "1.7976931348623157e+308"; "-1234.5"; "-0.0"; "inf"].
Proof. vm_compute. reflexivity. Qed.

Example format_comma_floats :
  map format_comma
    [VFloat (FFinite false 2000 0);
     VFloat (FFinite false 5302428716536693 (-32));
     VFloat (FFinite false 152587890625 16);
     VFloat (FFinite true 2469 (-1))]
  = [Ok "2,000.0"; Ok "1,234,567.891"; Ok "1e+16"; Ok "-1,234.5"].
Proof. vm_compute. reflexivity. Qed.

Example numbers_compare_by_value :
  py_lt (VInt 3) (VFloat (FFinite false 6980579422424269 (-51))) = Ok true /\
  py_lt (VFloat (FFinite false 6980579422424269 (-51))) (VInt 3) = Ok false /\
  py_eq (VFloat (FFinite false 3 0)) (VInt 3) = true /\
  py_eq (VInt 9007199254740993) (VFloat (FFinite false 1 53)) = false /\
  py_lt (VInt (10 ^ 400)) (VFloat (FInf false)) = Ok true /\
  py_eq (VFloat (FZero true)) (VInt 0) = true.
Proof. vm_compute. repeat split. Qed.

Example py_sorted_stable_descending :
  py_sorted (VList [VDict [("n", VStr "a"); ("k", VInt 2)];
                    VDict [("n", VStr "b")];
                    VDict [("n", VStr "c"); ("k", VInt 5)];
                    VDict [("n", VStr "d"); ("k", VInt 2)];
                    VDict [("n", VStr "e"); ("k", VInt 0)]])
            (fun x => py_get x "k" (VInt 0)) true
  = Ok [VDict [("n", VStr "c"); ("k", VInt 5)];
        VDict [("n", VStr "a"); ("k", VInt 2)];
        VDict [("n", VStr "d"); ("k", VInt 2)];
        VDict [("n", VStr "b")];
        VDict [("n", VStr "e"); ("k", VInt 0)]].
Proof. reflexivity. Qed.

(** ** Facts about the pure sort *)

Section IntKeysFacts.

Variable kz : value -> Z.

Lemma insert_by_perm x l : Permutation (insert_by kz x l) (x :: l).
Proof.
  induction l as [|y l IH]; simpl; [reflexivity|].
  destruct (kz y <? kz x); [|reflexivity].
  rewrite IH. apply perm_swap.
Qed.

Lemma sort_by_perm l : Permutation (sort_by kz l) l.
Proof.
  induction l as [|x l IH]; simpl; [constructor|].
  rewrite insert_by_perm. now constructor.
Qed.

Lemma insert_by_ascending x l :
  ascending kz l -> ascending kz (insert_by kz x l).
Proof.
  unfold ascending. induction l as [|y l IH]; intros Hs; simpl.
  - repeat constructor.
  - apply StronglySorted_inv in Hs as [Hl Hy].
    destruct (kz y <? kz x) eqn:E.
    + apply Z.ltb_lt in E. constructor; [auto|].
      eapply Permutation_Forall; [symmetry; apply insert_by_perm|].
      constructor; [lia|exact Hy].
    + apply Z.ltb_ge in E. constructor; [constructor; auto|].
      constructor; [exact E|].
      eapply Forall_impl; [|exact Hy]. simpl. intros; lia.
Qed.

Lemma sort_by_ascending l : ascending kz (sort_by kz l).
Proof.
  induction l as [|x l IH]; simpl; [constructor|].
  now apply insert_by_ascending.
Qed.

Lemma with_key_insert_by z x l :
  with_key kz z (insert_by kz x l) = with_key kz z (x :: l).
Proof.
  unfold with_key. induction l as [|y l IH]; simpl; [reflexivity|].
  destruct (kz y <? kz x) eqn:E; simpl; [|reflexivity].
  apply Z.ltb_lt in E. rewrite IH. simpl.
  destruct (kz x =? z) eqn:Ex, (kz y =? z) eqn:Ey; try reflexivity.
  apply Z.eqb_eq in Ex, Ey. lia.
Qed.

Lemma with_key_sort_by z l : with_key kz z (sort_by kz l) = with_key kz z l.
Proof.
  induction l as [|x l IH]; simpl; [reflexivity|].
  rewrite with_key_insert_by. unfold with_key in *. simpl. now rewrite IH.
Qed.

Lemma sort_by_fixes_ascending l : ascending kz l -> sort_by kz l = l.
Proof.
  unfold ascending. induction l as [|x l IH]; intros Hs; simpl; [reflexivity|].
  apply StronglySorted_inv in Hs as [Hl Hx]. rewrite (IH Hl).
  destruct l as [|y l]; simpl; [reflexivity|].
  inversion Hx; subst.
  destruct (kz y <? kz x) eqn:E; [apply Z.ltb_lt in E; lia|reflexivity].
Qed.

Lemma sorted_snoc (R : value -> value -> Prop) l x :
  StronglySorted R l -> Forall (fun y => R y x) l -> StronglySorted R (l ++ [x]).
Proof.
  induction l as [|y l IH]; intros Hs Hx; simpl.
  - repeat constructor.
  - apply StronglySorted_inv in Hs as [Hl Hy]. inversion Hx; subst.
    constructor; [auto|]. apply Forall_app. split; [exact Hy|]. now constructor.
Qed.

Lemma ascending_rev l : ascending kz l -> descending kz (rev l).
Proof.
  unfold ascending, descending.
  induction l as [|x l IH]; intros Hs; simpl; [constructor|].
  apply StronglySorted_inv in Hs as [Hl Hx].
  apply sorted_snoc; [auto|]. now apply Forall_rev.
Qed.

Lemma descending_rev l : descending kz l -> ascending kz (rev l).
Proof.
  unfold ascending, descending.
  induction l as [|x l IH]; intros Hs; simpl; [constructor|].
  apply StronglySorted_inv in Hs as [Hl Hx].
  apply sorted_snoc; [auto|]. now apply Forall_rev.
Qed.

Lemma sort_desc_ranked l : ranked_desc kz l (sort_desc kz l).
Proof.
  unfold ranked_desc, sort_desc. repeat split.
  - rewrite <- Permutation_rev, sort_by_perm. symmetry. apply Permutation_rev.
  - apply ascending_rev, sort_by_ascending.
  - intros z. unfold with_key. rewrite filter_rev.
    fold (with_key kz z (sort_by kz (rev l))). rewrite with_key_sort_by.
    unfold with_key. rewrite filter_rev. apply rev_involutive.
Qed.

Lemma sort_by_ranked l : ranked_asc kz l (sort_by kz l).
Proof.
  unfold ranked_asc. repeat split.
  - apply sort_by_perm.
  - apply sort_by_ascending.
  - intros z. apply with_key_sort_by.
Qed.

Lemma sort_desc_fixes_descending l : descending kz l -> sort_desc kz l = l.
Proof.
  intros Hs. unfold sort_desc.
  rewrite sort_by_fixes_ascending by now apply descending_rev.
  apply rev_involutive.
Qed.

Lemma descending_firstn n l : descending kz l -> descending kz (firstn n l).
Proof.
  unfold descending. revert l.
  induction n as [|n IH]; intros l Hs; simpl; [constructor|].
  destruct l as [|x l]; [constructor|].
  apply StronglySorted_inv in Hs as [Hl Hx].
  constructor; [auto|].
  rewrite Forall_forall in *. intros y Hy. apply Hx.
  rewrite <- (firstn_skipn n l). apply in_or_app. now left.
Qed.

End IntKeysFacts.

(** ** The sort of the scripts on integer keys *)

Section SortOnIntKeys.

Variable key : value -> result value.
Variable kz : value -> Z.

Lemma decorate_int_keyed l : int_keyed key kz l -> decorate key l = Ok (map (decorated kz) l).
Proof.
  induction 1 as [|x l Hx _ IH]; simpl; [reflexivity|].
  now rewrite Hx, IH.
Qed.

Lemma insert_keyed_dec x l :
  insert_keyed (decorated kz x) (map (decorated kz) l) = Ok (map (decorated kz) (insert_by kz x l)).
Proof.
  induction l as [|y l IH]; simpl; [reflexivity|].
  destruct (kz y <? kz x); simpl; [|reflexivity].
  fold (decorated kz x). now rewrite IH.
Qed.

Lemma sort_keyed_dec l : sort_keyed (map (decorated kz) l) = Ok (map (decorated kz) (sort_by kz l)).
Proof.
  induction l as [|x l IH]; simpl; [reflexivity|].
  rewrite IH. simpl. apply insert_keyed_dec.
Qed.

Lemma map_snd_dec l : map snd (map (decorated kz) l) = l.
Proof. rewrite map_map. unfold decorated. simpl. apply map_id. Qed.

Lemma list_sort_ascending l :
  int_keyed key kz l -> list_sort key false l = Ok (sort_by kz l).
Proof.
  intros Hk. unfold list_sort. rewrite (decorate_int_keyed l Hk). simpl.
  rewrite sort_keyed_dec. simpl. now rewrite map_snd_dec.
Qed.

Lemma list_sort_descending l :
  int_keyed key kz l -> list_sort key true l = Ok (sort_desc kz l).
Proof.
  intros Hk. unfold list_sort, sort_desc.
  rewrite (decorate_int_keyed l Hk). simpl.
  rewrite <- map_rev, sort_keyed_dec. simpl.
  now rewrite <- map_rev, map_snd_dec.
Qed.

Lemma int_keyed_perm l l' : Permutation l l' -> int_keyed key kz l -> int_keyed key kz l'.
Proof. intros Hp. unfold int_keyed. now apply Permutation_Forall. Qed.

Lemma int_keyed_firstn n l : int_keyed key kz l -> int_keyed key kz (firstn n l).
Proof.
  unfold int_keyed. rewrite !Forall_forall. intros H x Hx. apply H.
  rewrite <- (firstn_skipn n l). apply in_or_app. now left.
Qed.

End SortOnIntKeys.

Lemma numeric_field_get k default r :
  numeric_field k r -> py_get r k (VInt default) = Ok (VInt (field_or k default r)).
Proof.
  intros (d & -> & [Hn | (z & Hz)]); simpl.
  - now rewrite Hn.
  - now rewrite Hz.
Qed.

Lemma numeric_int_keyed k default l :
  Forall (numeric_field k) l ->
  int_keyed (fun x => py_get x k (VInt default)) (field_or k default) l.
Proof.
  unfold int_keyed. apply Forall_impl. intros r. apply numeric_field_get.
Qed.

(** ** Ranking and truncation (sections 4.2 and 8 of the specification) *)

Lemma top_desc_spec key kz n l :
  int_keyed key kz l ->
  rbind (py_sorted (VList l) key true) (fun s => Ok (firstn n s))
  = Ok (firstn n (sort_desc kz l)).
Proof.
  intros Hk. unfold py_sorted. simpl.
  now rewrite (list_sort_descending key kz l Hk).
Qed.

Lemma top_desc_again key kz n l :
  int_keyed key kz l ->
  rbind (py_sorted (VList (firstn n (sort_desc kz l))) key true)
        (fun s => Ok (firstn n s))
  = Ok (firstn n (sort_desc kz l)).
Proof.
  intros Hk.
  assert (Hr := sort_desc_ranked kz l). destruct Hr as (Hp & Hd & _).
  rewrite (top_desc_spec key kz).
  - rewrite sort_desc_fixes_descending by now apply descending_firstn.
    rewrite firstn_firstn. now rewrite Nat.min_id.
  - apply int_keyed_firstn. eapply int_keyed_perm; [symmetry; exact Hp|exact Hk].
Qed.

(** C2.  On records whose ranking field is an integer or absent, the
    ranking step of [explore_smart_trends.py] and of [fetch_lunarcrush.py]
    returns the records stable-sorted by that field in descending order
    (a permutation of the input, keys descending, and for every key value
    the records carrying it in their original order), cut to the first
    five, with an absent field read as 0. *)
Theorem rank_and_truncate_stable_descending (topics posts : list value) :
  Forall (numeric_field "interactions_24h") topics ->
  Forall (numeric_field "interactions_total") posts ->
  (exists s, ranked_desc (field_or "interactions_24h" 0) topics s /\
             explore_smart_trends.top_topics_of (VList topics) = Ok (firstn 5 s)) /\
  (exists s, ranked_desc (field_or "interactions_total" 0) posts s /\
             fetch_lunarcrush.rank (VList posts) = Ok s /\
             top_stories_of (VList posts) = Ok (firstn 5 s)) /\
  (forall r, lacks "interactions_24h" r ->
             explore_smart_trends.interactions_key r = Ok (VInt 0)) /\
  (forall r, lacks "interactions_total" r ->
             fetch_lunarcrush.interactions_key r = Ok (VInt 0)).
Proof.
  intros Ht Hp. repeat split.
  - exists (sort_desc (field_or "interactions_24h" 0) topics). split.
    + apply sort_desc_ranked.
    + apply (top_desc_spec _ (field_or "interactions_24h" 0)).
      now apply numeric_int_keyed.
  - exists (sort_desc (field_or "interactions_total" 0) posts).
    assert (Hk := numeric_int_keyed "interactions_total" 0 posts Hp).
    split; [apply sort_desc_ranked|]. split.
    + unfold fetch_lunarcrush.rank, py_sorted. simpl.
      apply (list_sort_descending _ _ _ Hk).
    + apply (top_desc_spec _ _ 5 _ Hk).
  - intros r (d & -> & Hd). unfold explore_smart_trends.interactions_key.
    simpl. now rewrite Hd.
  - intros r (d & -> & Hd). unfold fetch_lunarcrush.interactions_key.
    simpl. now rewrite Hd.
Qed.

(** C5.  Ranking and truncating the output of rank-and-truncate gives
    that output back, in both scripts that rank. *)
Theorem rank_and_truncate_idempotent (topics posts : list value) :
  Forall (numeric_field "interactions_24h") topics ->
  Forall (numeric_field "interactions_total") posts ->
  (exists top, explore_smart_trends.top_topics_of (VList topics) = Ok top /\
               explore_smart_trends.top_topics_of (VList top) = Ok top) /\
  (exists top, top_stories_of (VList posts) = Ok top /\
               top_stories_of (VList top) = Ok top).
Proof.
  intros Ht Hp. split.
  - assert (Hk := numeric_int_keyed "interactions_24h" 0 topics Ht).
    eexists. split.
    + apply (top_desc_spec _ _ 5 _ Hk).
    + apply (top_desc_again _ _ 5 _ Hk).
  - assert (Hk := numeric_int_keyed "interactions_total" 0 posts Hp).
    eexists. split.
    + apply (top_desc_spec _ _ 5 _ Hk).
    + apply (top_desc_again _ _ 5 _ Hk).
Qed.

Lemma sample_topics_numeric : Forall (numeric_field "interactions_24h") sample_topics.
Proof. repeat constructor; numeric_record. Defined.

Lemma sample_posts_numeric : Forall (numeric_field "interactions_total") sample_posts.
Proof. repeat constructor; numeric_record. Defined.

Lemma rank_and_truncate_stable_descending_witness :
  Forall (numeric_field "interactions_24h") sample_topics /\
  Forall (numeric_field "interactions_total") sample_posts /\
  exists s, ranked_desc (field_or "interactions_24h" 0) sample_topics s /\
            explore_smart_trends.top_topics_of (VList sample_topics)
            = Ok (firstn 5 s).
Proof.
  split; [exact sample_topics_numeric|].
  split; [exact sample_posts_numeric|].
  exact (proj1 (rank_and_truncate_stable_descending sample_topics sample_posts
                  sample_topics_numeric sample_posts_numeric)).
Defined.

Lemma rank_and_truncate_idempotent_witness :
  Forall (numeric_field "interactions_24h") sample_topics /\
  Forall (numeric_field "interactions_total") sample_posts /\
  exists top, top_stories_of (VList sample_posts) = Ok top /\
              top_stories_of (VList top) = Ok top.
Proof.
  split; [exact sample_topics_numeric|].
  split; [exact sample_posts_numeric|].
  exact (proj2 (rank_and_truncate_idempotent sample_topics sample_posts
                  sample_topics_numeric sample_posts_numeric)).
Defined.

Example top_topics_of_sample :
  explore_smart_trends.top_topics_of (VList sample_topics)
  = Ok [VDict [("topic", VStr "ai"); ("interactions_24h", VInt 50)];
        VDict [("topic", VStr "defi"); ("interactions_24h", VInt 20)];
        VDict [("topic", VStr "l2"); ("interactions_24h", VInt 20)];
        VDict [("topic", VStr "nft")]].
Proof. reflexivity. Qed.

(** ** The AltRank diagnostic of [test_trends.py] *)

Lemma select_others_dicts coins :
  Forall is_dict coins -> test_trends.select_others coins = Ok (filter kept coins).
Proof.
  induction 1 as [|c coins (d & ->) _ IH]; simpl; [reflexivity|].
  rewrite IH. simpl. unfold kept. simpl.
  now destruct (not_in_strs _ _).
Qed.

Lemma numeric_is_dict k coins :
  Forall (numeric_field k) coins -> Forall is_dict coins.
Proof. apply Forall_impl. intros c (d & -> & _). now exists d. Qed.

Lemma Forall_filter {A} (P : A -> Prop) f (l : list A) :
  Forall P l -> Forall P (filter f l).
Proof.
  rewrite !Forall_forall. intros H x Hx. apply H.
  now apply filter_In in Hx as [Hx _].
Qed.

Lemma ranked_others_numeric coins :
  Forall (numeric_field "alt_rank") coins ->
  test_trends.ranked_others (VList coins)
  = Ok (sort_by (field_or "alt_rank" 9999) (filter kept coins)).
Proof.
  intros Hn. unfold test_trends.ranked_others. simpl.
  rewrite select_others_dicts by (eapply numeric_is_dict; eassumption). simpl.
  apply list_sort_ascending.
  apply (numeric_int_keyed "alt_rank" 9999). now apply Forall_filter.
Qed.

Lemma sorted_nth_error (R : value -> value -> Prop) l :
  StronglySorted R l ->
  forall i j a b, (i < j)%nat ->
    nth_error l i = Some a -> nth_error l j = Some b -> R a b.
Proof.
  induction 1 as [|x l Hs IH Hx]; intros i j a b Hij Ha Hb.
  - now destruct i.
  - destruct j as [|j]; [lia|]. simpl in Hb.
    destruct i as [|i]; simpl in Ha.
    + injection Ha as <-. rewrite Forall_forall in Hx.
      apply Hx. eapply nth_error_In; eassumption.
    + apply (IH i j); [lia|assumption|assumption].
Qed.

(** C6, as amended.  A record without the ranking field makes each key
    accessor return its default (0 for the two descending sorts, 9999 for
    the AltRank sort) and no exception; and in the AltRank ranking every
    record without [alt_rank] comes after every record whose [alt_rank]
    is below the sentinel 9999. *)
Theorem missing_key_defaults_and_sentinel_order (coins : list value) :
  Forall (numeric_field "alt_rank") coins ->
  (forall r, lacks "interactions_24h" r ->
             explore_smart_trends.interactions_key r = Ok (VInt 0)) /\
  (forall r, lacks "interactions_total" r ->
             fetch_lunarcrush.interactions_key r = Ok (VInt 0)) /\
  (forall r, lacks "alt_rank" r -> test_trends.alt_rank_key r = Ok (VInt 9999)) /\
  exists others,
    test_trends.ranked_others (VList coins) = Ok others /\
    missing_sort_after (fun z => z < 9999) others.
Proof.
  intros Hn. repeat split.
  - intros r (d & -> & Hd). unfold explore_smart_trends.interactions_key.
    simpl. now rewrite Hd.
  - intros r (d & -> & Hd). unfold fetch_lunarcrush.interactions_key.
    simpl. now rewrite Hd.
  - intros r (d & -> & Hd). unfold test_trends.alt_rank_key.
    simpl. now rewrite Hd.
  - eexists. split; [now apply ranked_others_numeric|].
    intros i j a b z Ha Hb (da & -> & Hza) Hz (db & -> & Hzb).
    destruct (Nat.lt_ge_cases i j) as [Hlt|Hge]; [exact Hlt|exfalso].
    destruct (Nat.eq_dec i j) as [->|Hne].
    + rewrite Ha in Hb. injection Hb as ->. congruence.
    + assert (Hs := sort_by_ascending (field_or "alt_rank" 9999) (filter kept coins)).
      assert (Hle := sorted_nth_error _ _ Hs j i _ _ ltac:(lia) Hb Ha).
      simpl in Hle. rewrite Hza, Hzb in Hle. lia.
Qed.

(** C6 as stated fails: a record ranked 10000 has an [alt_rank] value and
    yet sorts after the record that has none. *)
Lemma sentinel_does_not_bound_alt_rank :
  exists others,
    test_trends.ranked_others (VList [late_coin; unranked_coin]) = Ok others /\
    ~ missing_sort_after (fun _ => True) others.
Proof.
  exists [unranked_coin; late_coin]. split; [reflexivity|].
  intros H.
  specialize (H 1%nat 0%nat late_coin unranked_coin 10000 eq_refl eq_refl).
  assert (Hlt : (1 < 0)%nat).
  { apply H; [eexists; split; reflexivity|exact I|eexists; split; reflexivity]. }
  lia.
Qed.

Lemma missing_key_defaults_and_sentinel_order_witness :
  Forall (numeric_field "alt_rank") [late_coin; unranked_coin; early_coin] /\
  exists others,
    test_trends.ranked_others (VList [late_coin; unranked_coin; early_coin])
    = Ok others /\
    missing_sort_after (fun z => z < 9999) others.
Proof.
  assert (Hn : Forall (numeric_field "alt_rank") [late_coin; unranked_coin; early_coin])
    by (repeat constructor; numeric_record).
  split; [exact Hn|].
  exact (proj2 (proj2 (proj2 (missing_key_defaults_and_sentinel_order _ Hn)))).
Defined.

(** The sort only rearranges: whatever the keys, a result it returns is a
    permutation of its input. *)

Lemma decorate_snd key l kl : decorate key l = Ok kl -> map snd kl = l.
Proof.
  revert kl. induction l as [|x l IH]; simpl; intros kl H.
  - now injection H as <-.
  - destruct (key x) as [k|e]; simpl in H; [|discriminate].
    destruct (decorate key l) as [kl'|e]; simpl in H; [|discriminate].
    injection H as <-. simpl. now rewrite (IH kl' eq_refl).
Qed.

Lemma insert_keyed_perm p l r : insert_keyed p l = Ok r -> Permutation r (p :: l).
Proof.
  revert r. induction l as [|q l IH]; simpl; intros r H.
  - injection H as <-. reflexivity.
  - destruct (py_lt (fst q) (fst p)) as [[|]|e]; simpl in H; [| |discriminate].
    + destruct (insert_keyed p l) as [r'|e]; simpl in H; [|discriminate].
      injection H as <-. rewrite (IH r' eq_refl). apply perm_swap.
    + injection H as <-. reflexivity.
Qed.

Lemma sort_keyed_perm l r : sort_keyed l = Ok r -> Permutation r l.
Proof.
  revert r. induction l as [|p l IH]; simpl; intros r H.
  - injection H as <-. constructor.
  - destruct (sort_keyed l) as [r'|e]; simpl in H; [|discriminate].
    rewrite (insert_keyed_perm _ _ _ H). constructor. now apply IH.
Qed.

Lemma list_sort_perm key reverse l r :
  list_sort key reverse l = Ok r -> Permutation r l.
Proof.
  unfold list_sort. intros H.
  destruct (decorate key l) as [kl|e] eqn:Hd; simpl in H; [|discriminate].
  apply decorate_snd in Hd. subst l.
  destruct (sort_keyed _) as [s|e] eqn:Hs; simpl in H; [|discriminate].
  injection H as <-. apply sort_keyed_perm in Hs.
  apply Permutation_map. destruct reverse.
  - rewrite <- Permutation_rev, Hs. symmetry. apply Permutation_rev.
  - exact Hs.
Qed.

Lemma select_others_kept coins r :
  test_trends.select_others coins = Ok r ->
  forall c, In c r -> kept c = true.
Proof.
  revert r. induction coins as [|x coins IH]; simpl; intros r H c Hc.
  - injection H as <-. destruct Hc.
  - destruct (py_get x "symbol" VNone) as [sym|e] eqn:Hx; simpl in H; [|discriminate].
    destruct (test_trends.select_others coins) as [r'|e]; simpl in H; [|discriminate].
    injection H as <-.
    destruct (not_in_strs sym test_trends.ignored) eqn:Hk.
    + destruct Hc as [<-|Hc]; [|now apply (IH r')].
      unfold kept. now rewrite Hx.
    + now apply (IH r').
Qed.

Lemma kept_not_ignored c :
  kept c = true ->
  forall s, In s test_trends.ignored -> py_get c "symbol" VNone <> Ok (VStr s).
Proof.
  unfold kept. intros Hk s Hs Hget. rewrite Hget in Hk.
  assert (Ht : existsb (String.eqb s) test_trends.ignored = true).
  { apply existsb_exists. exists s. split; [exact Hs|apply String.eqb_refl]. }
  unfold not_in_strs in Hk. rewrite Ht in Hk. discriminate.
Qed.

Lemma ranked_others_kept coins others :
  test_trends.ranked_others coins = Ok others ->
  forall c, In c others -> kept c = true.
Proof.
  unfold test_trends.ranked_others. intros H c Hc.
  destruct (py_iter coins) as [cs|e]; simpl in H; [|discriminate].
  destruct (test_trends.select_others cs) as [sel|e] eqn:Hsel; simpl in H; [|discriminate].
  apply list_sort_perm in H.
  apply (select_others_kept cs sel Hsel).
  eapply Permutation_in; eassumption.
Qed.

(** What a loop that prints one computed line per element can print. *)
Lemma for_each_lines {A} (f : A -> result string) (l : list A) w t r :
  for_each l (fun x => line <- lift (f x) ;; print line) w = (t, r) ->
  forall line, In line (stdout t) -> exists x, In x l /\ f x = Ok line.
Proof.
  revert t r. induction l as [|x l IH]; simpl; intros t r H line Hl.
  - unfold ret in H. injection H as <- <-. destruct Hl.
  - unfold bind, lift, print in H. simpl in H.
    destruct (f x) as [s|e] eqn:Hx; simpl in H.
    + fold (@bind unit unit) in H.
      destruct (for_each l _ w) as [t' r'] eqn:Hrest.
      injection H as <- <-. simpl in Hl. destruct Hl as [<-|Hl].
      * exists x. auto.
      * destruct (IH _ _ eq_refl line Hl) as (y & Hy & Hfy). exists y. auto.
    + injection H as <- <-. destruct Hl.
Qed.

(** C10.  Whatever the coin list and however the block ends, each line of
    the AltRank report after its two headers is the line of a record of
    [others[:5]], where [others] is the filtered and sorted list, and the
    symbol of that record is none of BTC, ETH, USDT, USDC, SOL. *)
Theorem top5_by_altrank_excludes_majors
    (coins : value) (w : env) (t : list event) (r : result unit) :
  test_trends.coins_block coins w = (t, r) ->
  forall line, In line (stdout t) ->
    (exists keys, line = "Sample Coin Metrics keys: " ++ keys) \/
    line = "Top 5 by AltRank (Excluding Majors):" \/
    exists others c,
      test_trends.ranked_others coins = Ok others /\
      In c (firstn 5 others) /\
      test_trends.coin_line c = Ok line /\
      forall s, In s ["BTC"; "ETH"; "USDT"; "USDC"; "SOL"] ->
                py_get c "symbol" VNone <> Ok (VStr s).
Proof.
  unfold test_trends.coins_block. intros H line Hl.
  unfold bind at 1 in H. unfold lift at 1 in H.
  destruct (py_getitem_0 coins) as [first|e]; [|injection H as <- <-; destruct Hl].
  unfold bind at 1 in H. unfold lift at 1 in H.
  destruct (py_keys first) as [keys|e]; [|injection H as <- <-; destruct Hl].
  unfold bind at 1 in H. unfold print at 1 in H.
  unfold bind at 1 in H. unfold lift at 1 in H.
  destruct (test_trends.ranked_others coins) as [others|e] eqn:Hr.
  - unfold bind at 1 in H. unfold print at 1 in H.
    destruct (for_each (firstn 5 others) _ w) as [t' r'] eqn:Hloop.
    injection H as <- <-. simpl in Hl.
    destruct Hl as [<-|[<-|Hl]].
    + left. eexists. reflexivity.
    + right. left. reflexivity.
    + right. right.
      destruct (for_each_lines _ _ _ _ _ Hloop line Hl) as (c & Hc & Hline).
      exists others, c. repeat split; try assumption.
      change ["BTC"; "ETH"; "USDT"; "USDC"; "SOL"] with test_trends.ignored.
      apply kept_not_ignored.
      apply (ranked_others_kept coins others Hr).
      rewrite <- (firstn_skipn 5 others). apply in_or_app. now left.
  - injection H as <- <-. simpl in Hl. destruct Hl as [<-|[]].
    left. eexists. reflexivity.
Qed.

Example coins_block_sample :
  stdout (fst (test_trends.coins_block sample_coins offline))
  = ["Sample Coin Metrics keys: ['name', 'symbol', 'alt_rank']";
     "Top 5 by AltRank (Excluding Majors):";
     "   - Bonk (BONK) | AltRank: 3 | Vol24h: None";
     "   - Pepe (PEPE) | AltRank: 4 | Vol24h: None"].
Proof. reflexivity. Qed.

Lemma top5_by_altrank_excludes_majors_witness :
  test_trends.coins_block sample_coins offline
  = (fst (test_trends.coins_block sample_coins offline),
     snd (test_trends.coins_block sample_coins offline)) /\
  In "   - Bonk (BONK) | AltRank: 3 | Vol24h: None"
     (stdout (fst (test_trends.coins_block sample_coins offline))) /\
  ((exists keys, "   - Bonk (BONK) | AltRank: 3 | Vol24h: None"
                 = "Sample Coin Metrics keys: " ++ keys) \/
   "   - Bonk (BONK) | AltRank: 3 | Vol24h: None"
   = "Top 5 by AltRank (Excluding Majors):" \/
   exists others c,
     test_trends.ranked_others sample_coins = Ok others /\
     In c (firstn 5 others) /\
     test_trends.coin_line c = Ok "   - Bonk (BONK) | AltRank: 3 | Vol24h: None" /\
     forall s, In s ["BTC"; "ETH"; "USDT"; "USDC"; "SOL"] ->
               py_get c "symbol" VNone <> Ok (VStr s)).
Proof.
  split; [now destruct (test_trends.coins_block sample_coins offline)|].
  assert (Hin : In "   - Bonk (BONK) | AltRank: 3 | Vol24h: None"
                   (stdout (fst (test_trends.coins_block sample_coins offline))))
    by (vm_compute; tauto).
  split; [exact Hin|].
  apply (top5_by_altrank_excludes_majors sample_coins offline
           (fst (test_trends.coins_block sample_coins offline))
           (snd (test_trends.coins_block sample_coins offline))).
  - now destruct (test_trends.coins_block sample_coins offline).
  - exact Hin.
Defined.

(** ** The fetch helpers (sections 4.1 and 7 of the specification) *)

Lemma test_trends_get_json_failure w url :
  fails w (trends_request url) ->
  test_trends.get_json url w
  = ([Http (trends_request url);
      Print (failed_line url (send w (trends_request url)))],
     Ok (VList [])).
Proof.
  unfold fails, test_trends.get_json, try_except, bind, requests_get.
  fold (get_request url test_trends.API_KEY (Some 10)). fold (trends_request url).
  destruct (send w (trends_request url)) as [res|e]; intros Hf; simpl.
  - apply Z.eqb_neq in Hf. rewrite Hf. reflexivity.
  - reflexivity.
Qed.

Lemma explore_get_json_failure w url :
  fails w (explore_request url) ->
  explore_smart_trends.get_json url w
  = ([Print (nl ++ "> Fetching: " ++ url);
      Http (explore_request url);
      Print (error_line (send w (explore_request url)))],
     Ok VNone).
Proof.
  unfold fails, explore_smart_trends.get_json, try_except, bind, requests_get, print.
  fold (get_request url explore_smart_trends.API_KEY (Some 15)).
  fold (explore_request url).
  destruct (send w (explore_request url)) as [res|e]; intros Hf; simpl.
  - apply Z.eqb_neq in Hf. rewrite Hf. reflexivity.
  - reflexivity.
Qed.

(** C1, as amended.  When the answer to its request is an exception or a
    status other than 200, [get_json] prints one failure line and returns
    without raising: the empty list in [test_trends.py], [None] (which
    every caller tests with [if]) in [explore_smart_trends.py].  When every
    request fails, both scripts print their headings and the failure lines,
    [test_trends.py] also its zero counts, and end normally. *)
Theorem fetch_failure_is_logged_not_raised (w : env) (url : string) :
  fails w (trends_request url) ->
  fails w (explore_request url) ->
  test_trends.get_json url w
  = ([Http (trends_request url);
      Print (failed_line url (send w (trends_request url)))],
     Ok (VList [])) /\
  explore_smart_trends.get_json url w
  = ([Print (nl ++ "> Fetching: " ++ url);
      Http (explore_request url);
      Print (error_line (send w (explore_request url)))],
     Ok VNone) /\
  truthy VNone = false /\
  ((forall r, fails w r) ->
   snd (test_trends.main w) = Ok tt /\
   stdout (fst (test_trends.main w))
   = ["--- DIAGNOSTIC: FINDING ACTIONABLE TRENDS ---";
      nl ++ "1. CHECKING SOCIAL TOPICS (/topics/list/v1)...";
      failed_line (test_trends.BASE_URL ++ "/topics/list/v1")
        (send w (trends_request (test_trends.BASE_URL ++ "/topics/list/v1")));
      "Found 0 topics.";
      nl ++ "2. CHECKING CATEGORIES (/categories/list/v1)...";
      failed_line (test_trends.BASE_URL ++ "/categories/list/v1")
        (send w (trends_request (test_trends.BASE_URL ++ "/categories/list/v1")));
      "Found 0 categories.";
      nl ++ "3. CHECKING HIGH ALTRANK COINS (Removing BTC/ETH)...";
      failed_line (test_trends.BASE_URL ++ "/coins/list/v2")
        (send w (trends_request (test_trends.BASE_URL ++ "/coins/list/v2")))] /\
   snd (explore_smart_trends.main w) = Ok tt /\
   stdout (fst (explore_smart_trends.main w))
   = ["--- SMART TREND DISCOVERY (News & Narratives) ---" ++ nl;
      "1️⃣  Identifying Meta Narratives (Topics)...";
      nl ++ "> Fetching: " ++ explore_smart_trends.BASE_URL ++ "/topics/list/v1";
      error_line
        (send w (explore_request (explore_smart_trends.BASE_URL ++ "/topics/list/v1")));
      nl ++ "3️⃣  Identifying Market Sectors (Categories)...";
      nl ++ "> Fetching: " ++ explore_smart_trends.BASE_URL ++ "/categories/list/v1";
      error_line
        (send w (explore_request
                   (explore_smart_trends.BASE_URL ++ "/categories/list/v1")))]).
Proof.
  intros Ht He.
  split; [now apply test_trends_get_json_failure|].
  split; [now apply explore_get_json_failure|].
  split; [reflexivity|].
  intros Hall.
  unfold test_trends.main, test_trends.topics_section,
    test_trends.categories_section, test_trends.coins_section,
    explore_smart_trends.main, explore_smart_trends.topics_section,
    explore_smart_trends.categories_section.
  unfold bind. cbv beta.
  rewrite !test_trends_get_json_failure by apply Hall.
  rewrite !explore_get_json_failure by apply Hall.
  repeat split.
Qed.

(** C1 as stated fails for [explore_smart_trends.py]: after a failure its
    helper returns [None], which is not an empty sequence. *)
Lemma explore_failure_is_not_an_empty_sequence :
  ~ (forall w url,
       fails w (explore_request url) ->
       snd (explore_smart_trends.get_json url w) = Ok (VList [])).
Proof.
  intros H.
  specialize (H server_error "https://lunarcrush.com/api4/public/topics/list/v1").
  assert (Hf : fails server_error
                 (explore_request "https://lunarcrush.com/api4/public/topics/list/v1"))
    by (vm_compute; discriminate).
  specialize (H Hf). vm_compute in H. discriminate.
Qed.

Lemma fetch_failure_is_logged_not_raised_witness :
  fails server_error (trends_request "https://lunarcrush.com/api4/public/coins/list/v2") /\
  fails server_error (explore_request "https://lunarcrush.com/api4/public/coins/list/v2") /\
  snd (test_trends.get_json "https://lunarcrush.com/api4/public/coins/list/v2" server_error)
  = Ok (VList []).
Proof.
  assert (Ht : fails server_error
                 (trends_request "https://lunarcrush.com/api4/public/coins/list/v2"))
    by (vm_compute; discriminate).
  assert (He : fails server_error
                 (explore_request "https://lunarcrush.com/api4/public/coins/list/v2"))
    by (vm_compute; discriminate).
  split; [exact Ht|]. split; [exact He|].
  rewrite (proj1 (fetch_failure_is_logged_not_raised server_error _ Ht He)).
  reflexivity.
Defined.

(** C3, as amended.  On a 200 response whose body is a JSON object, the
    two [get_json] helpers return its [data] field, and the empty list
    when the object has none; [fetch_lunarcrush_data] returns the whole
    object, from which [analyze_data] reads [data] later. *)
Theorem ok_response_returns_data
    (w : env) (url : string) (res : response) (d : list (string * value)) :
  status_code res = 200 ->
  json res = Ok (VDict d) ->
  (send w (trends_request url) = Ok res ->
   snd (test_trends.get_json url w) = Ok (data_or_empty d)) /\
  (send w (explore_request url) = Ok res ->
   snd (explore_smart_trends.get_json url w) = Ok (data_or_empty d)) /\
  (send w lunar_request = Ok res ->
   snd (fetch_lunarcrush.fetch_lunarcrush_data w) = Ok (VDict d)).
Proof.
  intros Hs Hj. repeat split; intros Hsend.
  - unfold test_trends.get_json, try_except, bind, requests_get.
    fold (get_request url test_trends.API_KEY (Some 10)). fold (trends_request url).
    rewrite Hsend. simpl. rewrite Hs. simpl. rewrite Hj. reflexivity.
  - unfold explore_smart_trends.get_json, try_except, bind, requests_get, print.
    fold (get_request url explore_smart_trends.API_KEY (Some 15)).
    fold (explore_request url).
    rewrite Hsend. simpl. rewrite Hs. simpl. rewrite Hj. reflexivity.
  - unfold fetch_lunarcrush.fetch_lunarcrush_data, try_except, bind, requests_get,
      print, raise_for_status.
    fold (get_request fetch_lunarcrush.LUNAR_URL fetch_lunarcrush.LUNAR_API_KEY None).
    fold lunar_request.
    rewrite Hsend. simpl. rewrite Hs. simpl. rewrite Hj. reflexivity.
Qed.

(** C3 as stated fails for [fetch_lunarcrush_data]: on a 200 response it
    returns the body, not the body's [data] field. *)
Lemma fetch_lunarcrush_data_returns_whole_body :
  ~ (forall w res d,
       send w lunar_request = Ok res ->
       status_code res = 200 ->
       json res = Ok (VDict d) ->
       snd (fetch_lunarcrush.fetch_lunarcrush_data w) = Ok (data_or_empty d)).
Proof.
  intros H.
  specialize (H (answering 200 (VDict [("data", VList [VInt 1])])) _ _
                eq_refl eq_refl eq_refl).
  vm_compute in H. discriminate.
Qed.

Lemma ok_response_returns_data_witness :
  status_code (mkResponse 200 "OK" "u" "{}" (Ok (VDict []))) = 200 /\
  json (mkResponse 200 "OK" "u" "{}" (Ok (VDict []))) = Ok (VDict []) /\
  snd (test_trends.get_json "u"
         (mkEnv (fun _ => Ok (mkResponse 200 "OK" "u" "{}" (Ok (VDict []))))
                "2025-01-01"))
  = Ok (VList []).
Proof.
  split; [reflexivity|]. split; [reflexivity|].
  exact (proj1 (ok_response_returns_data
                  (mkEnv (fun _ => Ok (mkResponse 200 "OK" "u" "{}" (Ok (VDict []))))
                         "2025-01-01")
                  "u" (mkResponse 200 "OK" "u" "{}" (Ok (VDict []))) []
                  eq_refl eq_refl) eq_refl).
Defined.

(** ** Timeouts (section 4.1) *)

(** The two [get_json] helpers send one request each, with a timeout of
    10 and of 15 seconds. *)
Lemma get_json_requests_have_timeouts w url :
  requests_of (fst (test_trends.get_json url w)) = [trends_request url] /\
  req_timeout (trends_request url) = Some 10 /\
  requests_of (fst (explore_smart_trends.get_json url w)) = [explore_request url] /\
  req_timeout (explore_request url) = Some 15.
Proof.
  repeat split.
  - unfold test_trends.get_json, try_except, bind, requests_get.
    fold (get_request url test_trends.API_KEY (Some 10)). fold (trends_request url).
    destruct (send w (trends_request url)) as [res|e]; simpl; [|reflexivity].
    destruct (status_code res =? 200); simpl; [|reflexivity].
    destruct (json res) as [body|e]; simpl; [|reflexivity].
    now destruct (py_get body "data" (VList [])).
  - unfold explore_smart_trends.get_json, try_except, bind, requests_get, print.
    fold (get_request url explore_smart_trends.API_KEY (Some 15)).
    fold (explore_request url).
    destruct (send w (explore_request url)) as [res|e]; simpl; [|reflexivity].
    destruct (status_code res =? 200); simpl; [|reflexivity].
    destruct (json res) as [body|e]; simpl; [|reflexivity].
    now destruct (py_get body "data" (VList [])).
Qed.

(** C7 fails on [fetch_lunarcrush_data]: in every world its one request
    is the GET of [LUNAR_URL] with no timeout at all. *)
Theorem fetch_lunarcrush_data_has_no_timeout (w : env) :
  requests_of (fst (fetch_lunarcrush.fetch_lunarcrush_data w)) = [lunar_request] /\
  req_method lunar_request = GET /\
  req_timeout lunar_request = None.
Proof.
  repeat split.
  unfold fetch_lunarcrush.fetch_lunarcrush_data, try_except, bind, requests_get,
    print, raise_for_status.
  fold (get_request fetch_lunarcrush.LUNAR_URL fetch_lunarcrush.LUNAR_API_KEY None).
  fold lunar_request.
  destruct (send w lunar_request) as [res|e]; simpl.
  - destruct ((400 <=? status_code res) && (status_code res <? 500)); simpl.
    + reflexivity.
    + destruct ((500 <=? status_code res) && (status_code res <? 600)); simpl.
      * reflexivity.
      * now destruct (json res) as [body|[[] msg]].
  - now destruct (is_RequestException e).
Qed.

(** ** Rendering an empty result (section 8) *)

Lemma get_json_ok_trends w url res d :
  send w (trends_request url) = Ok res -> status_code res = 200 ->
  json res = Ok (VDict d) ->
  test_trends.get_json url w = ([Http (trends_request url)], Ok (data_or_empty d)).
Proof.
  intros Hsend Hs Hj.
  unfold test_trends.get_json, try_except, bind, requests_get.
  fold (get_request url test_trends.API_KEY (Some 10)). fold (trends_request url).
  rewrite Hsend. simpl. rewrite Hs. simpl. rewrite Hj. reflexivity.
Qed.

Lemma get_json_ok_explore w url res d :
  send w (explore_request url) = Ok res -> status_code res = 200 ->
  json res = Ok (VDict d) ->
  explore_smart_trends.get_json url w
  = ([Print (nl ++ "> Fetching: " ++ url); Http (explore_request url)],
     Ok (data_or_empty d)).
Proof.
  intros Hsend Hs Hj.
  unfold explore_smart_trends.get_json, try_except, bind, requests_get, print.
  fold (get_request url explore_smart_trends.API_KEY (Some 15)).
  fold (explore_request url).
  rewrite Hsend. simpl. rewrite Hs. simpl. rewrite Hj. reflexivity.
Qed.

Lemma fetch_lunarcrush_data_ok w res body :
  send w lunar_request = Ok res -> status_code res = 200 ->
  json res = Ok body ->
  fetch_lunarcrush.fetch_lunarcrush_data w
  = ([Print ("Fetching data from " ++ fetch_lunarcrush.LUNAR_URL ++ "...");
      Http lunar_request],
     Ok body).
Proof.
  intros Hsend Hs Hj.
  unfold fetch_lunarcrush.fetch_lunarcrush_data, try_except, bind, requests_get,
    print, raise_for_status.
  fold (get_request fetch_lunarcrush.LUNAR_URL fetch_lunarcrush.LUNAR_API_KEY None).
  fold lunar_request.
  rewrite Hsend. simpl. rewrite Hs. simpl. rewrite Hj. reflexivity.
Qed.

(** C4, as amended.  When every request is answered 200 with a JSON
    object whose [data] is the empty list: [fetch_lunarcrush.py] prints
    "No posts found." and nothing after it; the topics section of
    [test_trends.py] prints "Found 0 topics." and no record; the topics
    section of [explore_smart_trends.py] prints nothing for the empty
    list.  All three end normally. *)
Theorem empty_data_rendering
    (w : env) (res : response) (d : list (string * value)) :
  (forall r, send w r = Ok res) ->
  status_code res = 200 ->
  json res = Ok (VDict d) ->
  assoc "data" d = Some (VList []) ->
  (snd (fetch_lunarcrush.main w) = Ok tt /\
   stdout (fst (fetch_lunarcrush.main w))
   = ["Fetching data from " ++ fetch_lunarcrush.LUNAR_URL ++ "...";
      "No posts found."]) /\
  (snd (test_trends.topics_section w) = Ok tt /\
   stdout (fst (test_trends.topics_section w))
   = [nl ++ "1. CHECKING SOCIAL TOPICS (/topics/list/v1)...";
      "Found 0 topics."]) /\
  (snd (explore_smart_trends.topics_section w) = Ok tt /\
   stdout (fst (explore_smart_trends.topics_section w))
   = ["1️⃣  Identifying Meta Narratives (Topics)...";
      nl ++ "> Fetching: " ++ explore_smart_trends.BASE_URL ++ "/topics/list/v1"]) /\
  explore_smart_trends.render_topics (VList []) w = ([], Ok tt).
Proof.
  intros Hsend Hs Hj Hd.
  assert (He : data_or_empty d = VList []) by (unfold data_or_empty; now rewrite Hd).
  split; [|split; [|split]].
  - unfold fetch_lunarcrush.main, bind.
    rewrite (fetch_lunarcrush_data_ok w res (VDict d) (Hsend _) Hs Hj).
    destruct d as [|kv d']; [discriminate|].
    cbn [truthy]. unfold fetch_lunarcrush.analyze_data, bind, lift, ret, print.
    cbn [truthy negb py_contains_key py_getitem_str]. rewrite Hd.
    split; reflexivity.
  - unfold test_trends.topics_section, bind.
    rewrite (get_json_ok_trends w _ res d (Hsend _) Hs Hj), He.
    split; reflexivity.
  - unfold explore_smart_trends.topics_section, bind.
    rewrite (get_json_ok_explore w _ res d (Hsend _) Hs Hj), He.
    split; reflexivity.
  - reflexivity.
Qed.

(** C4 as stated fails for [explore_smart_trends.py]: with [data: []] the
    helper returns the empty list and the rendering step prints nothing,
    so no "no data" message appears. *)
Lemma explore_prints_nothing_for_empty_data :
  snd (explore_smart_trends.get_json
         (explore_smart_trends.BASE_URL ++ "/topics/list/v1") empty_data_world)
  = Ok (VList []) /\
  ~ exists line,
      In line (stdout (fst (explore_smart_trends.render_topics (VList [])
                              empty_data_world))).
Proof.
  split; [reflexivity|]. intros (line & Hl). exact Hl.
Qed.

Lemma empty_data_rendering_witness :
  (forall r, send empty_data_world r = Ok empty_data_response) /\
  status_code empty_data_response = 200 /\
  json empty_data_response = Ok (VDict [("data", VList [])]) /\
  stdout (fst (fetch_lunarcrush.main empty_data_world))
  = ["Fetching data from " ++ fetch_lunarcrush.LUNAR_URL ++ "...";
     "No posts found."].
Proof.
  split; [reflexivity|]. split; [reflexivity|]. split; [reflexivity|].
  exact (proj2 (proj1 (empty_data_rendering
                         empty_data_world empty_data_response [("data", VList [])]
                         (fun _ => eq_refl) eq_refl eq_refl eq_refl))).
Defined.

(** ** The narrative-summary requester (section 4.4) *)

Lemma news_line_dict item :
  is_dict item -> fetch_lunarcrush.news_line item = Ok (expected_line item).
Proof.
  intros (d & ->). unfold fetch_lunarcrush.news_line, expected_line, shown. simpl.
  destruct (assoc "post_title" d), (assoc "creator_display_name" d),
    (assoc "post_sentiment" d), (assoc "interactions_total" d); reflexivity.
Qed.

Lemma map_result_map {A B} (f : A -> result B) (g : A -> B) (P : A -> Prop) l :
  (forall x, P x -> f x = Ok (g x)) -> Forall P l -> map_result f l = Ok (map g l).
Proof.
  intros Hf. induction 1 as [|x l Hx _ IH]; simpl; [reflexivity|].
  now rewrite (Hf x Hx), IH.
Qed.

Lemma Forall_firstn {A} (P : A -> Prop) n (l : list A) :
  Forall P l -> Forall P (firstn n l).
Proof.
  rewrite !Forall_forall. intros H x Hx. apply H.
  rewrite <- (firstn_skipn n l). apply in_or_app. now left.
Qed.

Lemma build_prompt_dicts news_items :
  Forall is_dict news_items ->
  fetch_lunarcrush.build_prompt news_items
  = Ok (fetch_lunarcrush.prompt_head
        ++ String.concat nl (map expected_line (firstn 15 news_items))
        ++ fetch_lunarcrush.prompt_tail).
Proof.
  intros Hd. unfold fetch_lunarcrush.build_prompt.
  rewrite (map_result_map _ expected_line is_dict).
  - reflexivity.
  - apply news_line_dict.
  - now apply Forall_firstn.
Qed.

Lemma get_ai_analysis_request news_items prompt w :
  fetch_lunarcrush.build_prompt news_items = Ok prompt ->
  requests_of (fst (fetch_lunarcrush.get_ai_analysis news_items w))
  = [summary_request prompt].
Proof.
  intros Hp.
  unfold fetch_lunarcrush.get_ai_analysis, try_except, bind, requests_post, print,
    lift, raise_for_status.
  rewrite Hp. cbv zeta. fold (summary_request prompt).
  destruct (send w (summary_request prompt)) as [res|e]; simpl; [|reflexivity].
  destruct ((400 <=? status_code res) && (status_code res <? 500)); simpl;
    [reflexivity|].
  destruct ((500 <=? status_code res) && (status_code res <? 600)); simpl;
    [reflexivity|].
  destruct (json res) as [body|e]; simpl; [|reflexivity].
  now destruct (fetch_lunarcrush.first_candidate_text body).
Qed.

(** *** Lines of the prompt *)

Lemma lines_of_nonempty s : lines_of s <> [].
Proof.
  destruct s as [|c s]; simpl; [discriminate|].
  destruct (Ascii.eqb c _); [discriminate|].
  destruct (lines_of s); discriminate.
Qed.

Lemma lines_of_app a b :
  lines_of (a ++ b)
  = app (removelast (lines_of a))
        ((last (lines_of a) "" ++ hd "" (lines_of b)) :: tl (lines_of b)).
Proof.
  induction a as [|c a IH].
  - simpl. destruct (lines_of b) eqn:E; [now apply lines_of_nonempty in E|reflexivity].
  - change (String c a ++ b) with (String c (a ++ b)).
    cbn [lines_of]. destruct (Ascii.eqb c (ascii_of_N 10)).
    + rewrite IH. destruct (lines_of a) eqn:E; [now apply lines_of_nonempty in E|].
      reflexivity.
    + rewrite IH. destruct (lines_of a) as [|l ls] eqn:E;
        [now apply lines_of_nonempty in E|].
      destruct ls as [|l' ls]; reflexivity.
Qed.

Lemma has_char_app c a b : has_char c (a ++ b) = has_char c a || has_char c b.
Proof.
  unfold has_char. induction a as [|x a IH]; simpl; [reflexivity|].
  now rewrite IH, orb_assoc.
Qed.

Lemma single_line_app a b : single_line (a ++ b) = single_line a && single_line b.
Proof. unfold single_line. now rewrite has_char_app, negb_orb. Qed.

Lemma lines_of_single s : single_line s = true -> lines_of s = [s].
Proof.
  induction s as [|c s IH]; intros H; [reflexivity|].
  unfold single_line, has_char in *.
  cbn [list_ascii_of_string existsb lines_of] in *.
  rewrite Ascii.eqb_sym in H.
  destruct (Ascii.eqb c (ascii_of_N 10)); [discriminate H|].
  cbn [orb] in H. now rewrite (IH H).
Qed.

Lemma append_empty_r s : s ++ "" = s.
Proof. induction s as [|c s IH]; simpl; [reflexivity|now rewrite IH]. Qed.

Lemma lines_of_joined entries :
  forallb single_line entries = true ->
  lines_of (String.concat nl entries)
  = match entries with [] => [""] | _ => entries end.
Proof.
  induction entries as [|e entries IH]; [reflexivity|].
  intros H. apply andb_true_iff in H as [He Hrest].
  destruct entries as [|e' entries].
  - simpl. now apply lines_of_single.
  - change (String.concat nl (e :: e' :: entries))
      with (e ++ nl ++ String.concat nl (e' :: entries)).
    rewrite lines_of_app, (lines_of_single e He).
    change (lines_of (nl ++ String.concat nl (e' :: entries)))
      with ("" :: lines_of (String.concat nl (e' :: entries))).
    rewrite (IH Hrest). simpl. now rewrite append_empty_r.
Qed.

Lemma one_line_entry item :
  one_line_record item = true -> single_line (expected_line item) = true.
Proof.
  unfold one_line_record, prompt_fields, expected_line. cbn [forallb].
  rewrite !andb_true_iff. intros (Ht & Hs & Hx & Hi & _).
  rewrite !single_line_app, Ht, Hs, Hx, Hi. reflexivity.
Qed.

Lemma one_line_entries items :
  forallb one_line_record items = true ->
  forallb single_line (map expected_line items) = true.
Proof.
  induction items as [|x items IH]; simpl; [reflexivity|].
  rewrite !andb_true_iff. intros [Hx H]. split; [now apply one_line_entry|now apply IH].
Qed.

Lemma prompt_lines_of entries :
  forallb single_line entries = true ->
  lines_of (fetch_lunarcrush.prompt_head ++ String.concat nl entries
            ++ fetch_lunarcrush.prompt_tail)
  = prompt_lines entries.
Proof.
  intros H. unfold prompt_lines.
  rewrite lines_of_app, lines_of_app, (lines_of_joined entries H).
  change (last (lines_of fetch_lunarcrush.prompt_head) "") with "    ".
  change (hd "" (lines_of fetch_lunarcrush.prompt_tail)) with "".
  destruct entries as [|e rest].
  - reflexivity.
  - cbn [data_lines]. rewrite append_empty_r.
    assert (Hl : app (removelast (e :: rest))
                     (last (e :: rest) ""
                      :: tl (lines_of fetch_lunarcrush.prompt_tail))
                 = app (e :: rest) (tl (lines_of fetch_lunarcrush.prompt_tail))).
    { rewrite (app_removelast_last "" (l := e :: rest)) at 3 by discriminate.
      now rewrite <- app_assoc. }
    rewrite Hl. reflexivity.
Qed.

(** C8, as amended.  For a list of news records of any length, the prompt
    is the fixed head, then one entry per record for the first 15 records
    at most, the entries joined by newlines, then the fixed tail; each
    entry interpolates the record's title, source, sentiment and
    interactions as [str] shows them ([None] for an absent field); and
    this prompt is the text the POST carries.  When none of the four
    fields of these records is shown with a newline in it, every entry is
    one line of the prompt: the lines of the prompt are those of the head,
    the entries in order (the first after the indentation of the
    template) and the lines of the tail. *)
Theorem prompt_embeds_first_15_records (news_items : list value) (w : env) :
  Forall is_dict news_items ->
  exists lines prompt,
    lines = map expected_line (firstn 15 news_items) /\
    List.length lines = Nat.min 15 (List.length news_items) /\
    (List.length lines <= 15)%nat /\
    prompt = fetch_lunarcrush.prompt_head ++ String.concat nl lines
             ++ fetch_lunarcrush.prompt_tail /\
    fetch_lunarcrush.build_prompt news_items = Ok prompt /\
    requests_of (fst (fetch_lunarcrush.get_ai_analysis news_items w))
    = [summary_request prompt] /\
    (forallb one_line_record (firstn 15 news_items) = true ->
     lines_of prompt = prompt_lines lines).
Proof.
  intros Hd. eexists. eexists.
  split; [reflexivity|].
  assert (Hlen : List.length (map expected_line (firstn 15 news_items))
                 = Nat.min 15 (List.length news_items))
    by (rewrite length_map; apply length_firstn).
  split; [exact Hlen|].
  split; [rewrite Hlen; apply Nat.le_min_l|].
  split; [reflexivity|].
  split; [now apply build_prompt_dicts|].
  split; [apply get_ai_analysis_request; now apply build_prompt_dicts|].
  intros Hone. apply prompt_lines_of. now apply one_line_entries.
Qed.

(** C8 as stated fails: the entry of a record whose title holds a newline
    takes two lines of the prompt. *)
Lemma title_with_newline_takes_two_lines :
  ~ (forall news_items, Forall is_dict news_items -> one_line_per_record news_items).
Proof.
  intros H.
  assert (Hd : Forall is_dict [two_line_story])
    by (repeat constructor; eexists; reflexivity).
  specialize (H [two_line_story] Hd _ eq_refl).
  vm_compute in H. discriminate.
Qed.

Example two_line_story_lines :
  lines_of (String.concat nl (map expected_line [two_line_story]))
  = ["- Markets rally";
     "Live updates (Source: None, Sentiment: None, Interactions: 10)"].
Proof. reflexivity. Qed.

Example news_lines_sample :
  map expected_line (firstn 4 sixteen_news)
  = ["- ETF inflows hit a record (Source: CoinDesk, Sentiment: 3.1, Interactions: 120450)";
     "- Bridge exploit drains funds (Source: None, Sentiment: 2.5, Interactions: 98000.5)";
     "- Layer 2 fees fall (Source: The Block, Sentiment: 3.0, Interactions: 54000)";
     "- Stablecoin bill advances (Source: Reuters, Sentiment: 2.85, Interactions: 41200)"].
Proof. vm_compute. reflexivity. Qed.

Lemma prompt_embeds_first_15_records_witness :
  Forall is_dict sixteen_news /\
  forallb one_line_record (firstn 15 sixteen_news) = true /\
  exists lines prompt,
    lines = map expected_line (firstn 15 sixteen_news) /\
    List.length lines = 15%nat /\
    prompt = fetch_lunarcrush.prompt_head ++ String.concat nl lines
             ++ fetch_lunarcrush.prompt_tail /\
    fetch_lunarcrush.build_prompt sixteen_news = Ok prompt /\
    requests_of (fst (fetch_lunarcrush.get_ai_analysis sixteen_news offline))
    = [summary_request prompt] /\
    lines_of prompt = prompt_lines lines /\
    nth_error (lines_of prompt) 5
    = Some "    - ETF inflows hit a record (Source: CoinDesk, Sentiment: 3.1, Interactions: 120450)" /\
    nth_error (lines_of prompt) 19
    = Some "- Story 15 (Source: None, Sentiment: None, Interactions: None)" /\
    nth_error (lines_of prompt) 21 = Some "    YOUR TASK:".
Proof.
  assert (Hd : Forall is_dict sixteen_news)
    by (repeat constructor; eexists; reflexivity).
  assert (Hone : forallb one_line_record (firstn 15 sixteen_news) = true)
    by (vm_compute; reflexivity).
  split; [exact Hd|]. split; [exact Hone|].
  destruct (prompt_embeds_first_15_records sixteen_news offline Hd)
    as (lines & prompt & Hl & Hlen & _ & Hp & Hb & Hr & Hlines).
  exists lines, prompt.
  split; [exact Hl|]. split; [exact Hlen|]. split; [exact Hp|].
  split; [exact Hb|]. split; [exact Hr|].
  split; [exact (Hlines Hone)|].
  rewrite (Hlines Hone), Hl. vm_compute. repeat split.
Defined.

Example seventeen_records_fifteen_lines :
  rbind (fetch_lunarcrush.build_prompt (repeat (VDict [("post_title", VStr "t")]) 17))
        (fun prompt => Ok (prompt =?
           fetch_lunarcrush.prompt_head
           ++ String.concat nl
                (repeat "- t (Source: None, Sentiment: None, Interactions: None)" 15)
           ++ fetch_lunarcrush.prompt_tail)%string)
  = Ok true.
Proof. vm_compute. reflexivity. Qed.

(** C9, as amended.  Once the prompt is built, a failure of the summary
    request (a transport error, a 4xx or 5xx status, a body that is not
    JSON, or JSON without [candidates[0].content.parts[0].text]) makes
    [get_ai_analysis] print one error line and return the fixed fallback
    string; no exception reaches the caller. *)
Theorem summary_failure_returns_fallback
    (news_items : list value) (prompt : string) (w : env) :
  fetch_lunarcrush.build_prompt news_items = Ok prompt ->
  summary_fails (send w (summary_request prompt)) ->
  fetch_lunarcrush.get_ai_analysis news_items w
  = ([Print "Generating AI Analysis...";
      Http (summary_request prompt);
      Print ("Error generating AI analysis: "
             ++ summary_error (send w (summary_request prompt)))],
     Ok (VStr "Could not generate AI analysis.")).
Proof.
  intros Hp Hf.
  unfold fetch_lunarcrush.get_ai_analysis, try_except, bind, requests_post, print,
    lift, raise_for_status.
  rewrite Hp. cbv zeta. fold (summary_request prompt).
  unfold summary_fails, summary_error in *.
  destruct (send w (summary_request prompt)) as [res|e]; simpl; [|reflexivity].
  destruct ((400 <=? status_code res) && (status_code res <? 500)) eqn:E4; simpl;
    [reflexivity|].
  destruct ((500 <=? status_code res) && (status_code res <? 600)) eqn:E5; simpl;
    [reflexivity|].
  destruct Hf as [Hs|Hb].
  - exfalso.
    apply andb_false_iff in E4, E5.
    rewrite Z.leb_gt, Z.ltb_ge in E4, E5. lia.
  - destruct (json res) as [body|e]; simpl; [|reflexivity].
    destruct Hb as (e & ->). reflexivity.
Qed.

(** C9 as stated fails on a status outside 2xx that [raise_for_status]
    lets through: a 302 answer with a well-formed body is returned as the
    summary, not replaced by the fallback. *)
Lemma redirect_status_is_not_a_failure :
  ~ (forall news_items prompt w res,
       fetch_lunarcrush.build_prompt news_items = Ok prompt ->
       send w (summary_request prompt) = Ok res ->
       (status_code res < 200 \/ 300 <= status_code res) ->
       snd (fetch_lunarcrush.get_ai_analysis news_items w)
       = Ok (VStr fetch_lunarcrush.fallback)).
Proof.
  intros H.
  specialize (H [] _ (answering 302 (candidates_body "Markets are calm.")) _
                eq_refl eq_refl).
  assert (Hs : 302 < 200 \/ 300 <= 302) by (right; lia).
  specialize (H Hs). vm_compute in H. discriminate.
Qed.

Lemma summary_failure_returns_fallback_witness :
  fetch_lunarcrush.build_prompt sample_news
  = Ok (fetch_lunarcrush.prompt_head
        ++ String.concat nl (map expected_line sample_news)
        ++ fetch_lunarcrush.prompt_tail) /\
  summary_fails (send server_error
                   (summary_request
                      (fetch_lunarcrush.prompt_head
                       ++ String.concat nl (map expected_line sample_news)
                       ++ fetch_lunarcrush.prompt_tail))) /\
  snd (fetch_lunarcrush.get_ai_analysis sample_news server_error)
  = Ok (VStr "Could not generate AI analysis.").
Proof.
  assert (Hf : summary_fails
                 (send server_error
                    (summary_request
                       (fetch_lunarcrush.prompt_head
                        ++ String.concat nl (map expected_line sample_news)
                        ++ fetch_lunarcrush.prompt_tail))))
    by (left; simpl; lia).
  split; [reflexivity|]. split; [exact Hf|].
  rewrite (summary_failure_returns_fallback sample_news _ server_error eq_refl Hf).
  reflexivity.
Defined.

(** * Further properties of the scripts *)

(** ** What the ranking returns, whatever the keys *)

Lemma firstn_in {A} n (l : list A) x : In x (firstn n l) -> In x l.
Proof.
  intros H. rewrite <- (firstn_skipn n l). apply in_or_app. now left.
Qed.

Lemma py_sorted_perm x key reverse items s :
  py_iter x = Ok items -> py_sorted x key reverse = Ok s -> Permutation s items.
Proof.
  unfold py_sorted. intros -> H. simpl in H. now apply list_sort_perm in H.
Qed.

(** The ranking of [explore_smart_trends.py] and of [fetch_lunarcrush.py]
    invents nothing: when it returns, whatever the keys are, the result is
    the first five of a rearrangement of the fetched records, so at most
    five records, each of them fetched. *)
Theorem ranking_selects_fetched_records (data : list value) (top : list value) :
  explore_smart_trends.top_topics_of (VList data) = Ok top \/
  top_stories_of (VList data) = Ok top ->
  (exists s, Permutation s data /\ top = firstn 5 s) /\
  (List.length top <= 5)%nat /\
  (forall r, In r top -> In r data).
Proof.
  intros H.
  assert (Hs : exists s, Permutation s data /\ top = firstn 5 s).
  { destruct H as [H|H].
    - unfold explore_smart_trends.top_topics_of in H.
      destruct (py_sorted (VList data) _ true) as [s|e] eqn:Hs; [|discriminate].
      injection H as <-. exists s. split; [|reflexivity].
      now apply (py_sorted_perm (VList data) _ _ data _ eq_refl Hs).
    - unfold top_stories_of, fetch_lunarcrush.rank in H.
      destruct (py_sorted (VList data) _ true) as [s|e] eqn:Hs; [|discriminate].
      injection H as <-. exists s. split; [|reflexivity].
      now apply (py_sorted_perm (VList data) _ _ data _ eq_refl Hs). }
  split; [exact Hs|]. destruct Hs as (s & Hp & ->). split.
  - apply firstn_le_length.
  - intros r Hr. eapply Permutation_in; [exact Hp|]. now apply firstn_in in Hr.
Qed.

Lemma ranking_selects_fetched_records_witness :
  (explore_smart_trends.top_topics_of (VList sample_topics)
   = Ok [VDict [("topic", VStr "ai"); ("interactions_24h", VInt 50)];
         VDict [("topic", VStr "defi"); ("interactions_24h", VInt 20)];
         VDict [("topic", VStr "l2"); ("interactions_24h", VInt 20)];
         VDict [("topic", VStr "nft")]] \/
   top_stories_of (VList sample_topics)
   = Ok [VDict [("topic", VStr "ai"); ("interactions_24h", VInt 50)];
         VDict [("topic", VStr "defi"); ("interactions_24h", VInt 20)];
         VDict [("topic", VStr "l2"); ("interactions_24h", VInt 20)];
         VDict [("topic", VStr "nft")]]) /\
  forall r,
    In r [VDict [("topic", VStr "ai"); ("interactions_24h", VInt 50)];
          VDict [("topic", VStr "defi"); ("interactions_24h", VInt 20)];
          VDict [("topic", VStr "l2"); ("interactions_24h", VInt 20)];
          VDict [("topic", VStr "nft")]] ->
    In r sample_topics.
Proof.
  split; [left; reflexivity|].
  exact (proj2 (proj2 (ranking_selects_fetched_records sample_topics _
                         (or_introl eq_refl)))).
Defined.

Lemma descending_split kz l :
  descending kz l ->
  forall n a b, In a (firstn n l) -> In b (skipn n l) -> kz b <= kz a.
Proof.
  unfold descending. induction 1 as [|x l Hs IH Hx]; intros n a b Ha Hb.
  - destruct n; destruct Ha.
  - destruct n as [|n]; [destruct Ha|]. simpl in Ha, Hb.
    destruct Ha as [<-|Ha].
    + rewrite Forall_forall in Hx. apply Hx.
      rewrite <- (firstn_skipn n l). apply in_or_app. now right.
    + now apply (IH n).
Qed.

(** The five records the rankings keep are the largest: no record left
    out has a greater key than a record kept (an absent field counting
    as 0). *)
Theorem top_five_are_the_largest (topics posts : list value) :
  Forall (numeric_field "interactions_24h") topics ->
  Forall (numeric_field "interactions_total") posts ->
  (exists s,
     Permutation s topics /\
     explore_smart_trends.top_topics_of (VList topics) = Ok (firstn 5 s) /\
     forall kept_one dropped,
       In kept_one (firstn 5 s) -> In dropped (skipn 5 s) ->
       field_or "interactions_24h" 0 dropped <= field_or "interactions_24h" 0 kept_one) /\
  (exists s,
     Permutation s posts /\
     top_stories_of (VList posts) = Ok (firstn 5 s) /\
     forall kept_one dropped,
       In kept_one (firstn 5 s) -> In dropped (skipn 5 s) ->
       field_or "interactions_total" 0 dropped
       <= field_or "interactions_total" 0 kept_one).
Proof.
  intros Ht Hp. split.
  - exists (sort_desc (field_or "interactions_24h" 0) topics).
    destruct (sort_desc_ranked (field_or "interactions_24h" 0) topics) as (Hperm & Hd & _).
    split; [exact Hperm|]. split.
    + apply (top_desc_spec _ (field_or "interactions_24h" 0)).
      now apply numeric_int_keyed.
    + intros a b. now apply descending_split.
  - exists (sort_desc (field_or "interactions_total" 0) posts).
    destruct (sort_desc_ranked (field_or "interactions_total" 0) posts) as (Hperm & Hd & _).
    split; [exact Hperm|]. split.
    + apply (top_desc_spec _ (field_or "interactions_total" 0) 5).
      now apply numeric_int_keyed.
    + intros a b. now apply descending_split.
Qed.

Lemma seven_topics_numeric : Forall (numeric_field "interactions_24h") seven_topics.
Proof. repeat constructor; numeric_record. Qed.

Lemma six_posts_numeric : Forall (numeric_field "interactions_total") six_posts.
Proof. repeat constructor; numeric_record. Qed.

Lemma top_five_are_the_largest_witness :
  Forall (numeric_field "interactions_24h") seven_topics /\
  Forall (numeric_field "interactions_total") six_posts /\
  (exists s,
     Permutation s seven_topics /\
     (List.length (firstn 5 s) = 5)%nat /\
     (List.length (skipn 5 s) = 2)%nat /\
     explore_smart_trends.top_topics_of (VList seven_topics) = Ok (firstn 5 s) /\
     forall kept_one dropped,
       In kept_one (firstn 5 s) -> In dropped (skipn 5 s) ->
       field_or "interactions_24h" 0 dropped <= field_or "interactions_24h" 0 kept_one) /\
  (exists s,
     Permutation s six_posts /\
     (List.length (firstn 5 s) = 5)%nat /\
     (List.length (skipn 5 s) = 1)%nat /\
     top_stories_of (VList six_posts) = Ok (firstn 5 s) /\
     forall kept_one dropped,
       In kept_one (firstn 5 s) -> In dropped (skipn 5 s) ->
       field_or "interactions_total" 0 dropped
       <= field_or "interactions_total" 0 kept_one).
Proof.
  split; [exact seven_topics_numeric|].
  split; [exact six_posts_numeric|].
  destruct (top_five_are_the_largest seven_topics six_posts
              seven_topics_numeric six_posts_numeric)
    as [(s & Hp & Htop & Hle) (s' & Hp' & Htop' & Hle')].
  split.
  - exists s. split; [exact Hp|].
    assert (Hlen := Permutation_length Hp). simpl in Hlen.
    split; [rewrite length_firstn, Hlen; reflexivity|].
    split; [rewrite length_skipn, Hlen; reflexivity|].
    split; [exact Htop|exact Hle].
  - exists s'. split; [exact Hp'|].
    assert (Hlen := Permutation_length Hp'). simpl in Hlen.
    split; [rewrite length_firstn, Hlen; reflexivity|].
    split; [rewrite length_skipn, Hlen; reflexivity|].
    split; [exact Htop'|exact Hle'].
Defined.

(** ** A null under the ranking key *)

Lemma py_lt_none_left b : exists e, py_lt VNone b = Raise e /\ exn_cls e = TypeError.
Proof. destruct b; simpl; eexists; split; reflexivity. Qed.

Lemma py_lt_none_right a : exists e, py_lt a VNone = Raise e /\ exn_cls e = TypeError.
Proof. destruct a; simpl; eexists; split; reflexivity. Qed.

Lemma py_lt_raises_TypeError :
  forall a b e, py_lt a b = Raise e -> exn_cls e = TypeError.
Proof.
  fix IH 1. intros a b e.
  destruct a as [| x | x | f | s | xs | d]; destruct b as [| y | y | g | t | ys | d'];
    simpl; try (intros H; injection H as <-; reflexivity); try discriminate.
  revert ys. induction xs as [|x xs IHxs]; intros [|y ys]; try discriminate.
  destruct (py_eq x y); [apply IHxs|apply IH].
Qed.

Lemma insert_keyed_raises p l e :
  insert_keyed p l = Raise e -> exn_cls e = TypeError.
Proof.
  induction l as [|q l IH]; simpl; [discriminate|].
  destruct (py_lt (fst q) (fst p)) as [[|]|e'] eqn:Hlt; simpl.
  - destruct (insert_keyed p l); simpl; [discriminate|].
    intros H. injection H as <-. now apply IH.
  - discriminate.
  - intros H. injection H as <-. now apply py_lt_raises_TypeError in Hlt.
Qed.

Lemma sort_keyed_raises l e : sort_keyed l = Raise e -> exn_cls e = TypeError.
Proof.
  induction l as [|p l IH]; simpl; [discriminate|].
  destruct (sort_keyed l) as [r|e']; simpl.
  - apply insert_keyed_raises.
  - intros H. injection H as <-. now apply IH.
Qed.

Lemma insert_keyed_compares p q l r :
  insert_keyed p (q :: l) = Ok r -> fst p <> VNone /\ fst q <> VNone.
Proof.
  simpl. destruct (py_lt (fst q) (fst p)) as [b|e] eqn:Hlt; [|discriminate].
  intros _. split; intros Hn; rewrite Hn in Hlt.
  - destruct (py_lt_none_right (fst q)) as (e & He & _). congruence.
  - destruct (py_lt_none_left (fst p)) as (e & He & _). congruence.
Qed.

(** A sort of two or more entries that returns has compared every key. *)
Lemma sort_keyed_ok_no_null l r :
  sort_keyed l = Ok r -> (2 <= List.length l)%nat ->
  forall p, In p l -> fst p <> VNone.
Proof.
  revert r. induction l as [|p l IH]; intros r H Hlen; [simpl in Hlen; lia|].
  simpl in H. destruct (sort_keyed l) as [r'|e] eqn:Hs; simpl in H; [|discriminate].
  assert (Hp := sort_keyed_perm _ _ Hs).
  destruct l as [|q0 l']; [simpl in Hlen; lia|].
  destruct r' as [|q r''];
    [apply Permutation_nil in Hp; discriminate|].
  destruct (insert_keyed_compares _ _ _ _ H) as (Hpn & Hqn).
  intros x [<-|Hx]; [exact Hpn|].
  destruct l' as [|q1 l''].
  - apply Permutation_sym, Permutation_length_1_inv in Hp.
    injection Hp as -> _. destruct Hx as [<-|[]]. exact Hqn.
  - apply (IH _ eq_refl); [simpl; lia|exact Hx].
Qed.

Lemma decorate_keys key l kl :
  decorate key l = Ok kl ->
  forall x k, In x l -> key x = Ok k -> In (k, x) kl.
Proof.
  revert kl. induction l as [|y l IH]; simpl; intros kl H x k Hx Hk; [destruct Hx|].
  destruct (key y) as [ky|e] eqn:Hy; simpl in H; [|discriminate].
  destruct (decorate key l) as [kl'|e]; simpl in H; [|discriminate].
  injection H as <-. destruct Hx as [->|Hx].
  - left. congruence.
  - right. now apply (IH kl' eq_refl x k).
Qed.

Lemma decorate_total key l :
  Forall (fun x => exists k, key x = Ok k) l -> exists kl, decorate key l = Ok kl.
Proof.
  induction 1 as [|x l (k & Hk) _ (kl & IH)]; simpl; [now eexists|].
  rewrite Hk, IH. simpl. now eexists.
Qed.

Lemma list_sort_null_key key reverse l :
  Forall (fun x => exists k, key x = Ok k) l ->
  (2 <= List.length l)%nat ->
  Exists (fun x => key x = Ok VNone) l ->
  exists e, list_sort key reverse l = Raise e /\ exn_cls e = TypeError.
Proof.
  intros Hk Hlen Hnull. unfold list_sort.
  destruct (decorate_total key l Hk) as (kl & Hd). rewrite Hd. simpl.
  apply Exists_exists in Hnull as (x & Hx & Hxk).
  assert (Hin := decorate_keys key l kl Hd x VNone Hx Hxk).
  assert (Hl : List.length kl = List.length l).
  { rewrite <- (length_map snd kl). now rewrite (decorate_snd key l kl Hd). }
  destruct (sort_keyed (if reverse then rev kl else kl)) as [r|e] eqn:Hs; simpl.
  - exfalso.
    apply (sort_keyed_ok_no_null _ _ Hs) with (p := (VNone, x)).
    + destruct reverse; [rewrite length_rev|]; lia.
    + destruct reverse; [now apply in_rev in Hin|exact Hin].
    + reflexivity.
  - exists e. split; [reflexivity|]. now apply sort_keyed_raises in Hs.
Qed.

Lemma dicts_have_keys k default l :
  Forall is_dict l -> Forall (fun x => exists v, py_get x k default = Ok v) l.
Proof. apply Forall_impl. intros x (d & ->). simpl. now eexists. Qed.

Lemma null_field_key k default l :
  Exists (null_field k) l -> Exists (fun x => py_get x k default = Ok VNone) l.
Proof.
  apply Exists_impl. intros x (d & -> & Hd). simpl. now rewrite Hd.
Qed.

(** The default of [x.get(key, 0)] covers an absent key only.  With two
    or more records of which one holds JSON [null] under the ranking key,
    [sorted] raises [TypeError] in both ranking scripts, and so does the
    AltRank sort of [test_trends.py] when the record is among two or more
    that pass the symbol filter. *)
Theorem null_ranking_key_raises (data : list value) :
  Forall is_dict data ->
  (2 <= List.length data)%nat ->
  (Exists (null_field "interactions_24h") data ->
   exists e, explore_smart_trends.top_topics_of (VList data) = Raise e /\
             exn_cls e = TypeError) /\
  (Exists (null_field "interactions_total") data ->
   exists e, top_stories_of (VList data) = Raise e /\ exn_cls e = TypeError) /\
  ((2 <= List.length (filter kept data))%nat ->
   Exists (null_field "alt_rank") (filter kept data) ->
   exists e, test_trends.ranked_others (VList data) = Raise e /\
             exn_cls e = TypeError).
Proof.
  intros Hd Hlen. repeat split.
  - intros Hn.
    destruct (list_sort_null_key explore_smart_trends.interactions_key true data)
      as (e & He & Hc); [now apply dicts_have_keys|exact Hlen| |].
    + now apply null_field_key.
    + exists e. split; [|exact Hc].
      unfold explore_smart_trends.top_topics_of, py_sorted. simpl. now rewrite He.
  - intros Hn.
    destruct (list_sort_null_key fetch_lunarcrush.interactions_key true data)
      as (e & He & Hc); [now apply dicts_have_keys|exact Hlen| |].
    + now apply null_field_key.
    + exists e. split; [|exact Hc].
      unfold top_stories_of, fetch_lunarcrush.rank, py_sorted. simpl. now rewrite He.
  - intros Hlen' Hn.
    destruct (list_sort_null_key test_trends.alt_rank_key false (filter kept data))
      as (e & He & Hc).
    + apply dicts_have_keys. now apply Forall_filter.
    + exact Hlen'.
    + now apply null_field_key.
    + exists e. split; [|exact Hc].
      unfold test_trends.ranked_others. simpl.
      rewrite (select_others_dicts data Hd). simpl. exact He.
Qed.

Lemma null_ranking_key_raises_witness :
  Forall is_dict null_topics /\
  (2 <= List.length null_topics)%nat /\
  Exists (null_field "interactions_24h") null_topics /\
  exists e, explore_smart_trends.top_topics_of (VList null_topics) = Raise e /\
            exn_cls e = TypeError.
Proof.
  assert (Hd : Forall is_dict null_topics)
    by (repeat constructor; eexists; reflexivity).
  assert (Hl : (2 <= List.length null_topics)%nat) by (simpl; lia).
  assert (Hn : Exists (null_field "interactions_24h") null_topics)
    by (left; eexists; split; reflexivity).
  split; [exact Hd|]. split; [exact Hl|]. split; [exact Hn|].
  exact (proj1 (null_ranking_key_raises null_topics Hd Hl) Hn).
Defined.

(** ** The fetch helpers on unusual answers *)

Lemma bind_ok {A B} (m : M A) (k : A -> M B) w t a :
  m w = (t, Ok a) -> bind m k w = ((t ++ fst (k a w))%list, snd (k a w)).
Proof. unfold bind. intros ->. now destruct (k a w). Qed.

Lemma bind_raise {A B} (m : M A) (k : A -> M B) w t e :
  m w = (t, Raise e) -> bind m k w = (t, Raise e).
Proof. unfold bind. now intros ->. Qed.

(** A 200 answer whose body is not JSON, or is JSON but not an object, is
    handled like a failure: the [except] clause of [get_json] prints the
    exception and the helper returns its failure value ([[]] in
    [test_trends.py], [None] in [explore_smart_trends.py]). *)
Theorem ok_status_with_unusable_body
    (w : env) (url : string) (res : response) (msg : string) :
  status_code res = 200 ->
  body_error (json res) = Some msg ->
  (send w (trends_request url) = Ok res ->
   test_trends.get_json url w
   = ([Http (trends_request url); Print ("Error " ++ url ++ ": " ++ msg)],
      Ok (VList []))) /\
  (send w (explore_request url) = Ok res ->
   explore_smart_trends.get_json url w
   = ([Print (nl ++ "> Fetching: " ++ url);
       Http (explore_request url);
       Print ("❌ Exception: " ++ msg)],
      Ok VNone)).
Proof.
  intros Hs Hb. split; intros Hsend.
  - unfold test_trends.get_json, try_except, bind, requests_get.
    fold (get_request url test_trends.API_KEY (Some 10)). fold (trends_request url).
    rewrite Hsend. simpl. rewrite Hs. simpl.
    destruct (json res) as [[| | | | | |]|e]; simpl in *;
      try discriminate; injection Hb as <-; reflexivity.
  - unfold explore_smart_trends.get_json, try_except, bind, requests_get, print.
    fold (get_request url explore_smart_trends.API_KEY (Some 15)).
    fold (explore_request url).
    rewrite Hsend. simpl. rewrite Hs. simpl.
    destruct (json res) as [[| | | | | |]|e]; simpl in *;
      try discriminate; injection Hb as <-; reflexivity.
Qed.

Lemma ok_status_with_unusable_body_witness :
  status_code (mkResponse 200 "OK" "u" "[1]" (Ok (VList [VInt 1]))) = 200 /\
  body_error (json (mkResponse 200 "OK" "u" "[1]" (Ok (VList [VInt 1]))))
  = Some "'list' object has no attribute 'get'" /\
  test_trends.get_json "u" (answering 200 (VList [VInt 1]))
  = ([Http (trends_request "u");
      Print "Error u: 'list' object has no attribute 'get'"],
     Ok (VList [])).
Proof.
  split; [reflexivity|]. split; [reflexivity|].
  exact (proj1 (ok_status_with_unusable_body
                  (answering 200 (VList [VInt 1])) "u"
                  (mkResponse 200 "OK" "u" "[1]" (Ok (VList [VInt 1])))
                  "'list' object has no attribute 'get'" eq_refl eq_refl)
               eq_refl).
Defined.

(** [fetch_lunarcrush_data] absorbs the exceptions of [requests] only:
    when the request or the JSON parsing raises, a [RequestException] is
    printed and turned into [None], and any other exception reaches the
    caller (the [get_json] helpers absorb every exception). *)
Theorem fetch_lunarcrush_data_absorbs_request_exceptions_only
    (w : env) (e : exn) :
  send w lunar_request = Raise e \/
  (exists res, send w lunar_request = Ok res /\ ~ rejected_status res /\
               json res = Raise e) ->
  fetch_lunarcrush.fetch_lunarcrush_data w
  = if is_RequestException e
    then ([Print fetching_line; Http lunar_request;
           Print ("Error fetching LunarCrush data: " ++ exn_msg e)],
          Ok VNone)
    else ([Print fetching_line; Http lunar_request], Raise e).
Proof.
  intros H.
  unfold fetch_lunarcrush.fetch_lunarcrush_data, try_except, bind, requests_get,
    print, raise_for_status.
  fold (get_request fetch_lunarcrush.LUNAR_URL fetch_lunarcrush.LUNAR_API_KEY None).
  fold lunar_request. fold fetching_line.
  destruct H as [->|(res & -> & Hr & Hj)]; simpl.
  - now destruct (is_RequestException e).
  - unfold rejected_status in Hr.
    destruct ((400 <=? status_code res) && (status_code res <? 500)) eqn:E4;
      [apply andb_true_iff in E4 as [E F]; apply Z.leb_le in E;
       apply Z.ltb_lt in F; lia|].
    destruct ((500 <=? status_code res) && (status_code res <? 600)) eqn:E5;
      [apply andb_true_iff in E5 as [E F]; apply Z.leb_le in E;
       apply Z.ltb_lt in F; lia|].
    simpl. rewrite Hj. simpl. now destruct (is_RequestException e).
Qed.

Lemma fetch_lunarcrush_data_absorbs_request_exceptions_only_witness :
  (send broken_transport lunar_request
   = Raise (mkExn ValueError "check_hostname requires server_hostname") \/
   exists res, send broken_transport lunar_request = Ok res /\
               ~ rejected_status res /\
               json res = Raise (mkExn ValueError
                                   "check_hostname requires server_hostname")) /\
  snd (fetch_lunarcrush.fetch_lunarcrush_data broken_transport)
  = Raise (mkExn ValueError "check_hostname requires server_hostname").
Proof.
  split; [left; reflexivity|].
  rewrite (fetch_lunarcrush_data_absorbs_request_exceptions_only broken_transport
             (mkExn ValueError "check_hostname requires server_hostname")
             (or_introl eq_refl)).
  reflexivity.
Defined.

(** [fetch_lunarcrush_data] judges the status with [raise_for_status]: a
    4xx or 5xx answer is printed as an error and gives [None], and every
    other status, 200 or not, gives the parsed body. *)
Theorem fetch_lunarcrush_data_by_status (w : env) (res : response) :
  send w lunar_request = Ok res ->
  (rejected_status res ->
   fetch_lunarcrush.fetch_lunarcrush_data w
   = ([Print fetching_line; Http lunar_request;
       Print ("Error fetching LunarCrush data: " ++ http_error_msg res)],
      Ok VNone)) /\
  (~ rejected_status res ->
   forall body, json res = Ok body ->
   fetch_lunarcrush.fetch_lunarcrush_data w
   = ([Print fetching_line; Http lunar_request], Ok body)).
Proof.
  intros Hsend.
  unfold fetch_lunarcrush.fetch_lunarcrush_data, try_except, bind, requests_get,
    print, raise_for_status, rejected_status, http_error_msg.
  fold (get_request fetch_lunarcrush.LUNAR_URL fetch_lunarcrush.LUNAR_API_KEY None).
  fold lunar_request. fold fetching_line. rewrite Hsend. simpl.
  split.
  - intros Hr.
    destruct (status_code res <? 500) eqn:E.
    + apply Z.ltb_lt in E.
      replace (400 <=? status_code res) with true by (symmetry; apply Z.leb_le; lia).
      reflexivity.
    + apply Z.ltb_ge in E.
      replace (500 <=? status_code res) with true by (symmetry; apply Z.leb_le; lia).
      replace (status_code res <? 600) with true by (symmetry; apply Z.ltb_lt; lia).
      rewrite andb_false_r. reflexivity.
  - intros Hr body Hj.
    destruct ((400 <=? status_code res) && (status_code res <? 500)) eqn:E4;
      [apply andb_true_iff in E4 as [E F]; apply Z.leb_le in E;
       apply Z.ltb_lt in F; lia|].
    destruct ((500 <=? status_code res) && (status_code res <? 600)) eqn:E5;
      [apply andb_true_iff in E5 as [E F]; apply Z.leb_le in E;
       apply Z.ltb_lt in F; lia|].
    simpl. rewrite Hj. reflexivity.
Qed.

Lemma fetch_lunarcrush_data_by_status_witness :
  send (answering 301 (VDict [("data", VList [])])) lunar_request
  = Ok (mkResponse 301 "OK" fetch_lunarcrush.LUNAR_URL "{'data': []}"
          (Ok (VDict [("data", VList [])]))) /\
  snd (fetch_lunarcrush.fetch_lunarcrush_data
         (answering 301 (VDict [("data", VList [])])))
  = Ok (VDict [("data", VList [])]).
Proof.
  split; [reflexivity|].
  rewrite (proj2 (fetch_lunarcrush_data_by_status
                    (answering 301 (VDict [("data", VList [])])) _ eq_refl)
             ltac:(unfold rejected_status; simpl; lia)
             (VDict [("data", VList [])]) eq_refl).
  reflexivity.
Defined.

(** ** More on the narrative-summary requester *)

Lemma rejected_status_tests res :
  ~ rejected_status res ->
  (400 <=? status_code res) && (status_code res <? 500) = false /\
  (500 <=? status_code res) && (status_code res <? 600) = false.
Proof.
  unfold rejected_status. intros Hr. split.
  - destruct ((400 <=? status_code res) && (status_code res <? 500)) eqn:E;
      [|reflexivity].
    apply andb_true_iff in E as [E F]. apply Z.leb_le in E. apply Z.ltb_lt in F. lia.
  - destruct ((500 <=? status_code res) && (status_code res <? 600)) eqn:E;
      [|reflexivity].
    apply andb_true_iff in E as [E F]. apply Z.leb_le in E. apply Z.ltb_lt in F. lia.
Qed.

(** When the request for the summary does not fail, [get_ai_analysis]
    prints its one progress line and returns the text of the first part of
    the first candidate, whatever JSON value that is. *)
Theorem summary_success_returns_candidate_text
    (news_items : list value) (prompt : string) (w : env) :
  fetch_lunarcrush.build_prompt news_items = Ok prompt ->
  ~ summary_fails (send w (summary_request prompt)) ->
  exists res body text,
    send w (summary_request prompt) = Ok res /\
    json res = Ok body /\
    fetch_lunarcrush.first_candidate_text body = Ok text /\
    fetch_lunarcrush.get_ai_analysis news_items w
    = ([Print "Generating AI Analysis..."; Http (summary_request prompt)], Ok text).
Proof.
  intros Hp Hf. unfold summary_fails in Hf.
  destruct (send w (summary_request prompt)) as [res|e] eqn:Hs; [|now destruct Hf].
  assert (Hr : ~ rejected_status res) by (intros H; apply Hf; now left).
  destruct (rejected_status_tests res Hr) as (E4 & E5).
  destruct (json res) as [body|e] eqn:Hj; [|exfalso; apply Hf; now right].
  destruct (fetch_lunarcrush.first_candidate_text body) as [text|e] eqn:Ht;
    [|exfalso; apply Hf; right; now exists e].
  exists res, body, text. repeat split; try assumption.
  unfold fetch_lunarcrush.get_ai_analysis, try_except, bind, requests_post, print,
    lift, raise_for_status.
  rewrite Hp. cbv zeta. fold (summary_request prompt).
  rewrite Hs, E4, E5. cbv beta iota. rewrite Hj. cbv beta iota. rewrite Ht.
  reflexivity.
Qed.

Lemma summary_success_returns_candidate_text_witness :
  fetch_lunarcrush.build_prompt []
  = Ok (fetch_lunarcrush.prompt_head ++ fetch_lunarcrush.prompt_tail) /\
  ~ summary_fails
      (send (answering 200 (candidates_body "Markets are calm."))
            (summary_request
               (fetch_lunarcrush.prompt_head ++ fetch_lunarcrush.prompt_tail))) /\
  exists res body text,
    send (answering 200 (candidates_body "Markets are calm."))
         (summary_request
            (fetch_lunarcrush.prompt_head ++ fetch_lunarcrush.prompt_tail))
    = Ok res /\
    json res = Ok body /\
    fetch_lunarcrush.first_candidate_text body = Ok text /\
    fetch_lunarcrush.get_ai_analysis []
      (answering 200 (candidates_body "Markets are calm."))
    = ([Print "Generating AI Analysis...";
        Http (summary_request
                (fetch_lunarcrush.prompt_head ++ fetch_lunarcrush.prompt_tail))],
       Ok text).
Proof.
  assert (Hf : ~ summary_fails
                 (send (answering 200 (candidates_body "Markets are calm."))
                       (summary_request
                          (fetch_lunarcrush.prompt_head
                           ++ fetch_lunarcrush.prompt_tail)))).
  { unfold summary_fails. simpl. intros [H|(e & H)]; [lia|discriminate]. }
  split; [reflexivity|]. split; [exact Hf|].
  exact (summary_success_returns_candidate_text [] _
           (answering 200 (candidates_body "Markets are calm.")) eq_refl Hf).
Defined.

Lemma firstn_app_long {A} n (l extra : list A) :
  (n <= List.length l)%nat -> firstn n (l ++ extra) = firstn n l.
Proof.
  intros H. rewrite firstn_app.
  replace (n - List.length l)%nat with 0%nat by lia.
  simpl. apply app_nil_r.
Qed.

(** [get_ai_analysis] reads its first 15 items only: whatever follows
    them, records or not, changes neither the prompt nor anything the
    function prints, sends or returns. *)
Theorem items_after_the_15th_are_ignored
    (news_items extra : list value) (w : env) :
  (15 <= List.length news_items)%nat ->
  fetch_lunarcrush.build_prompt (news_items ++ extra)
  = fetch_lunarcrush.build_prompt news_items /\
  fetch_lunarcrush.get_ai_analysis (news_items ++ extra) w
  = fetch_lunarcrush.get_ai_analysis news_items w.
Proof.
  intros Hlen.
  assert (Hp : fetch_lunarcrush.build_prompt (news_items ++ extra)
               = fetch_lunarcrush.build_prompt news_items).
  { unfold fetch_lunarcrush.build_prompt. now rewrite firstn_app_long. }
  split; [exact Hp|].
  unfold fetch_lunarcrush.get_ai_analysis. now rewrite Hp.
Qed.

Lemma items_after_the_15th_are_ignored_witness :
  (15 <= List.length (repeat (VDict [("post_title", VStr "t")]) 15))%nat /\
  fetch_lunarcrush.build_prompt
    (repeat (VDict [("post_title", VStr "t")]) 15 ++ [VInt 7; VNone])
  = fetch_lunarcrush.build_prompt (repeat (VDict [("post_title", VStr "t")]) 15).
Proof.
  assert (H : (15 <= List.length (repeat (VDict [("post_title", VStr "t")]) 15))%nat)
    by (simpl; lia).
  split; [exact H|].
  exact (proj1 (items_after_the_15th_are_ignored
                  (repeat (VDict [("post_title", VStr "t")]) 15)
                  [VInt 7; VNone] offline H)).
Defined.

Lemma news_line_not_dict item :
  ~ is_dict item ->
  exists e, fetch_lunarcrush.news_line item = Raise e /\ exn_cls e = AttributeError.
Proof.
  intros Hn. destruct item; simpl;
    try (eexists; split; reflexivity).
  exfalso. apply Hn. now eexists.
Qed.

Lemma news_line_class item e :
  fetch_lunarcrush.news_line item = Raise e -> exn_cls e = AttributeError.
Proof.
  destruct item; simpl; try (intros H; injection H as <-; reflexivity).
  discriminate.
Qed.

Lemma map_result_exists {A B} (f : A -> result B) (P : A -> Prop) l :
  (forall x, ~ P x -> exists e, f x = Raise e) ->
  Exists (fun x => ~ P x) l -> exists e, map_result f l = Raise e.
Proof.
  intros Hf. induction 1 as [x l Hx|x l _ (e & IH)]; simpl.
  - destruct (Hf x Hx) as (e & ->). now eexists.
  - destruct (f x); simpl; [rewrite IH|]; now eexists.
Qed.

Lemma map_result_class {A B} (f : A -> result B) (Q : exn -> Prop) l e :
  (forall x e', f x = Raise e' -> Q e') -> map_result f l = Raise e -> Q e.
Proof.
  intros Hf. induction l as [|x l IH]; simpl; [discriminate|].
  destruct (f x) as [y|e'] eqn:Hx; simpl.
  - destruct (map_result f l); simpl; [discriminate|].
    intros H. injection H as <-. now apply IH.
  - intros H. injection H as <-. now apply (Hf x).
Qed.

(** The prompt is built outside the [try] block: if one of the first 15
    items is not a record, [get_ai_analysis] raises [AttributeError] after
    its progress line, sends no request and returns no fallback. *)
Theorem non_record_item_raises_before_the_request
    (news_items : list value) (w : env) :
  Exists (fun item => ~ is_dict item) (firstn 15 news_items) ->
  exists e,
    fetch_lunarcrush.get_ai_analysis news_items w
    = ([Print "Generating AI Analysis..."], Raise e) /\
    exn_cls e = AttributeError.
Proof.
  intros Hx.
  destruct (map_result_exists fetch_lunarcrush.news_line is_dict
              (firstn 15 news_items)) as (e & He); [|exact Hx|].
  - intros x Hn. destruct (news_line_not_dict x Hn) as (e & He & _). now exists e.
  - exists e. split.
    + unfold fetch_lunarcrush.get_ai_analysis, bind, print, lift,
        fetch_lunarcrush.build_prompt.
      now rewrite He.
    + apply (map_result_class fetch_lunarcrush.news_line
               (fun e' => exn_cls e' = AttributeError) _ e news_line_class He).
Qed.

Lemma non_record_item_raises_before_the_request_witness :
  Exists (fun item => ~ is_dict item)
         (firstn 15 [VDict [("post_title", VStr "t")]; VStr "not a record"]) /\
  exists e,
    fetch_lunarcrush.get_ai_analysis
      [VDict [("post_title", VStr "t")]; VStr "not a record"] offline
    = ([Print "Generating AI Analysis..."], Raise e) /\
    exn_cls e = AttributeError.
Proof.
  assert (H : Exists (fun item => ~ is_dict item)
                (firstn 15 [VDict [("post_title", VStr "t")]; VStr "not a record"])).
  { right. left. intros (d & Hd). discriminate. }
  split; [exact H|].
  exact (non_record_item_raises_before_the_request _ offline H).
Defined.

(** ** The report of [fetch_lunarcrush.py] *)

(** Given nothing to analyse (a falsy value, or an object without a
    [data] key), [analyze_data] prints its one message, sends no request
    and returns normally. *)
Theorem analyze_data_without_data (json_data : value) (w : env) :
  truthy json_data = false \/
  (exists d, json_data = VDict d /\ assoc "data" d = None) ->
  fetch_lunarcrush.analyze_data json_data w
  = ([Print "No valid data found to analyze."], Ok tt).
Proof.
  intros H. unfold fetch_lunarcrush.analyze_data.
  destruct (truthy json_data) eqn:Ht.
  - destruct H as [H|(d & -> & Hd)]; [discriminate|].
    unfold bind, lift, ret, print. simpl. now rewrite Hd.
  - reflexivity.
Qed.

Lemma analyze_data_without_data_witness :
  (truthy (VDict [("config", VDict []); ("error", VStr "rate limited")]) = false \/
   exists d, VDict [("config", VDict []); ("error", VStr "rate limited")] = VDict d /\
             assoc "data" d = None) /\
  fetch_lunarcrush.analyze_data
    (VDict [("config", VDict []); ("error", VStr "rate limited")]) offline
  = ([Print "No valid data found to analyze."], Ok tt).
Proof.
  assert (H : truthy (VDict [("config", VDict []); ("error", VStr "rate limited")])
              = false \/
              exists d, VDict [("config", VDict []); ("error", VStr "rate limited")]
                        = VDict d /\ assoc "data" d = None)
    by (right; eexists; split; reflexivity).
  split; [exact H|].
  exact (analyze_data_without_data _ offline H).
Defined.

Lemma fetch_lunarcrush_data_returns w res body :
  send w lunar_request = Ok res -> ~ rejected_status res -> json res = Ok body ->
  fetch_lunarcrush.fetch_lunarcrush_data w
  = ([Print fetching_line; Http lunar_request], Ok body).
Proof.
  intros Hsend Hr Hj. destruct (rejected_status_tests res Hr) as (E4 & E5).
  unfold fetch_lunarcrush.fetch_lunarcrush_data, try_except, bind, requests_get,
    print, raise_for_status.
  fold (get_request fetch_lunarcrush.LUNAR_URL fetch_lunarcrush.LUNAR_API_KEY None).
  fold lunar_request. fold fetching_line.
  rewrite Hsend, E4, E5. cbv beta iota. rewrite Hj. reflexivity.
Qed.

(** The script tests the fetched body with [if result:] before it calls
    [analyze_data]: for a body that is falsy (the empty object, the empty
    list, [null], 0, the empty string) it prints the fetch line and
    nothing else, not even the message for missing data. *)
Theorem main_is_silent_on_a_falsy_body (w : env) (res : response) (body : value) :
  send w lunar_request = Ok res ->
  ~ rejected_status res ->
  json res = Ok body ->
  truthy body = false ->
  fetch_lunarcrush.main w = ([Print fetching_line; Http lunar_request], Ok tt).
Proof.
  intros Hsend Hr Hj Ht. unfold fetch_lunarcrush.main.
  rewrite (bind_ok _ _ _ _ _ (fetch_lunarcrush_data_returns w res body Hsend Hr Hj)).
  rewrite Ht. reflexivity.
Qed.

Lemma main_is_silent_on_a_falsy_body_witness :
  send (answering 200 (VDict [])) lunar_request
  = Ok (mkResponse 200 "OK" fetch_lunarcrush.LUNAR_URL "{}" (Ok (VDict []))) /\
  ~ rejected_status
      (mkResponse 200 "OK" fetch_lunarcrush.LUNAR_URL "{}" (Ok (VDict []))) /\
  truthy (VDict []) = false /\
  fetch_lunarcrush.main (answering 200 (VDict []))
  = ([Print fetching_line; Http lunar_request], Ok tt).
Proof.
  assert (Hr : ~ rejected_status
                 (mkResponse 200 "OK" fetch_lunarcrush.LUNAR_URL "{}" (Ok (VDict []))))
    by (unfold rejected_status; simpl; lia).
  split; [reflexivity|]. split; [exact Hr|]. split; [reflexivity|].
  exact (main_is_silent_on_a_falsy_body (answering 200 (VDict [])) _ (VDict [])
           eq_refl Hr eq_refl eq_refl).
Defined.





Example report_of_sample_posts :
  stdout (fst (fetch_lunarcrush.analyze_data
                 (VDict [("data", VList sample_posts)])
                 (answering 200 (candidates_body "Markets are calm."))))
  = [nl ++ "========================================";
     "LUNARCRUSH INTELLIGENCE BRIEF (2025-01-01)";
     "========================================";
     "Generating AI Analysis...";
     nl ++ "🧠 AI STRATEGIC ANALYSIS (CMO VIEW):";
     "------------------------------";
     "Markets are calm.";
     "------------------------------";
     nl ++ "📰 TOP STORIES (By Market Impact):";
     "1. b"; "   └─ Unknown | 🔥 9 interactions";
     "2. a"; "   └─ Unknown | 🔥 7 interactions";
     "3. c"; "   └─ Unknown | 🔥 0 interactions";
     nl ++ "========================================"].
Proof. reflexivity. Qed.




(** ** The fetch helpers never raise *)

Lemma trends_get_json_returns url w :
  exists t v, test_trends.get_json url w = (t, Ok v) /\
              requests_of t = [trends_request url].
Proof.
  unfold test_trends.get_json, try_except, bind, requests_get.
  fold (get_request url test_trends.API_KEY (Some 10)). fold (trends_request url).
  destruct (send w (trends_request url)) as [res|e]; simpl;
    [|eexists; eexists; split; reflexivity].
  destruct (status_code res =? 200); simpl;
    [|eexists; eexists; split; reflexivity].
  destruct (json res) as [body|e]; simpl;
    [|eexists; eexists; split; reflexivity].
  destruct (py_get body "data" (VList [])); simpl;
    eexists; eexists; split; reflexivity.
Qed.

Lemma explore_get_json_returns url w :
  exists t v, explore_smart_trends.get_json url w = (t, Ok v) /\
              requests_of t = [explore_request url].
Proof.
  unfold explore_smart_trends.get_json, try_except, bind, requests_get, print.
  fold (get_request url explore_smart_trends.API_KEY (Some 15)).
  fold (explore_request url).
  destruct (send w (explore_request url)) as [res|e]; simpl;
    [|eexists; eexists; split; reflexivity].
  destruct (status_code res =? 200); simpl;
    [|eexists; eexists; split; reflexivity].
  destruct (json res) as [body|e]; simpl;
    [|eexists; eexists; split; reflexivity].
  destruct (py_get body "data" (VList [])); simpl;
    eexists; eexists; split; reflexivity.
Qed.

(** Whatever the world answers and whatever the URL, the two [get_json]
    helpers end in a value: no exception of the request, of the JSON
    parsing or of the [.get] on the body leaves them. *)
Theorem get_json_never_raises (w : env) (url : string) :
  (exists v, snd (test_trends.get_json url w) = Ok v) /\
  (exists v, snd (explore_smart_trends.get_json url w) = Ok v).
Proof.
  split.
  - destruct (trends_get_json_returns url w) as (t & v & H & _).
    exists v. now rewrite H.
  - destruct (explore_get_json_returns url w) as (t & v & H & _).
    exists v. now rewrite H.
Qed.

(** ** The listings of [test_trends.py] *)








Lemma requests_of_app t t' :
  requests_of (t ++ t') = (requests_of t ++ requests_of t')%list.
Proof. apply flat_map_app. Qed.






(** ** The deep dives of [explore_smart_trends.py] *)

Lemma requests_bind {A B} (m : M A) (k : A -> M B) w :
  requests_of (fst (bind m k w))
  = match snd (m w) with
    | Ok a => (requests_of (fst (m w)) ++ requests_of (fst (k a w)))%list
    | Raise _ => requests_of (fst (m w))
    end.
Proof.
  unfold bind. destruct (m w) as [t [a|e]]; simpl; [|reflexivity].
  destruct (k a w) as [t' r]. simpl. apply requests_of_app.
Qed.


Lemma for_each_sends_nothing {A} (body : A -> M unit) w :
  (forall x, requests_of (fst (body x w)) = []) ->
  forall l, requests_of (fst (for_each l body w)) = [].
Proof.
  intros Hb. induction l as [|x l IH]; simpl; [reflexivity|].
  rewrite requests_bind, Hb. destruct (snd (body x w)); [|reflexivity].
  apply IH.
Qed.


















(** ** The coins the AltRank report ranks *)

Lemma ascending_split kz l :
  ascending kz l ->
  forall n a b, In a (firstn n l) -> In b (skipn n l) -> kz a <= kz b.
Proof.
  unfold ascending. induction 1 as [|x l Hs IH Hx]; intros n a b Ha Hb.
  - destruct n; destruct Ha.
  - destruct n as [|n]; [destruct Ha|]. simpl in Ha, Hb.
    destruct Ha as [<-|Ha].
    + rewrite Forall_forall in Hx. apply Hx.
      rewrite <- (firstn_skipn n l). apply in_or_app. now right.
    + now apply (IH n).
Qed.

(** On coins whose [alt_rank] is an integer or absent, the list the
    AltRank report ranks is a rearrangement of the coins that pass the
    symbol filter, in ascending [alt_rank] (an absent rank counting as
    9999): no coin left out of the five shown has a lower rank than one
    shown.  A coin without [symbol] passes the filter, since [None] is
    none of the ignored symbols. *)
Theorem altrank_report_shows_the_lowest_ranks (coins : list value) :
  Forall (numeric_field "alt_rank") coins ->
  exists others,
    test_trends.ranked_others (VList coins) = Ok others /\
    Permutation others (filter kept coins) /\
    ascending (field_or "alt_rank" 9999) others /\
    (forall shown_one dropped,
       In shown_one (firstn 5 others) -> In dropped (skipn 5 others) ->
       field_or "alt_rank" 9999 shown_one <= field_or "alt_rank" 9999 dropped) /\
    (forall c, In c coins -> lacks "symbol" c -> In c others).
Proof.
  intros Hn.
  exists (sort_by (field_or "alt_rank" 9999) (filter kept coins)).
  destruct (sort_by_ranked (field_or "alt_rank" 9999) (filter kept coins))
    as (Hp & Ha & _).
  split; [now apply ranked_others_numeric|].
  split; [exact Hp|]. split; [exact Ha|]. split.
  - intros a b. now apply ascending_split.
  - intros c Hc (d & -> & Hd).
    apply (Permutation_in _ (Permutation_sym Hp)).
    apply filter_In. split; [exact Hc|].
    unfold kept. simpl. now rewrite Hd.
Qed.

Lemma nine_coins_numeric : Forall (numeric_field "alt_rank") nine_coins.
Proof. repeat constructor; numeric_record. Qed.

Lemma altrank_report_shows_the_lowest_ranks_witness :
  Forall (numeric_field "alt_rank") nine_coins /\
  (List.length (filter kept nine_coins) = 7)%nat /\
  In nameless_coin nine_coins /\
  lacks "symbol" nameless_coin /\
  exists others,
    test_trends.ranked_others (VList nine_coins) = Ok others /\
    Permutation others (filter kept nine_coins) /\
    (List.length (firstn 5 others) = 5)%nat /\
    (List.length (skipn 5 others) = 2)%nat /\
    ascending (field_or "alt_rank" 9999) others /\
    (forall shown_one dropped,
       In shown_one (firstn 5 others) -> In dropped (skipn 5 others) ->
       field_or "alt_rank" 9999 shown_one <= field_or "alt_rank" 9999 dropped) /\
    (forall c, In c nine_coins -> lacks "symbol" c -> In c others) /\
    In nameless_coin others.
Proof.
  assert (Hin : In nameless_coin nine_coins) by (simpl; tauto).
  assert (Hlacks : lacks "symbol" nameless_coin) by (eexists; split; reflexivity).
  split; [exact nine_coins_numeric|].
  split; [reflexivity|]. split; [exact Hin|]. split; [exact Hlacks|].
  destruct (altrank_report_shows_the_lowest_ranks nine_coins nine_coins_numeric)
    as (others & Hr & Hp & Ha & Hsplit & Hkeep).
  exists others. split; [exact Hr|]. split; [exact Hp|].
  assert (Hlen := Permutation_length Hp).
  change (List.length (filter kept nine_coins)) with 7%nat in Hlen.
  split; [rewrite length_firstn, Hlen; reflexivity|].
  split; [rewrite length_skipn, Hlen; reflexivity|].
  split; [exact Ha|]. split; [exact Hsplit|]. split; [exact Hkeep|].
  exact (Hkeep nameless_coin Hin Hlacks).
Defined.
